(** * DSRF flat-file parser: a shallow embedding of
      [dsrf/parsers/dsrf_file_parser.py] and [dsrf/constants.py].

    The parser reads tokenized lines (one list of fields per physical
    line, as produced by [csv.reader]), groups them into HEAD, BODY and
    FOOT blocks and yields the blocks one by one.  Python exceptions are
    modelled by an error monad over the parser state, so that both the
    row-level failures that the loop catches and the exceptions that
    escape the generator are visible. *)

From Stdlib Require Import String Ascii List ZArith Bool Lia Sorted DecimalString.
Import ListNotations.
Open Scope string_scope.
Open Scope Z_scope.

Set Implicit Arguments.

(** ** Python strings *)

Module PyStr.

(** [str.upper()] on byte strings: only a-z are changed. *)
Definition upper_ascii (c : ascii) : ascii :=
  let n := nat_of_ascii c in
  if (Nat.leb 97 n && Nat.leb n 122)%bool then ascii_of_nat (n - 32) else c.

Fixpoint upper (s : string) : string :=
  match s with
  | EmptyString => EmptyString
  | String c s' => String (upper_ascii c) (upper s')
  end.

(** [s.startswith(p)]. *)
Definition startswith (s p : string) : bool := String.prefix p s.

(** Characters removed by [str.strip()], which [int] applies first. *)
Definition is_space (c : ascii) : bool :=
  let n := nat_of_ascii c in
  (Nat.eqb n 32 || (Nat.leb 9 n && Nat.leb n 13))%bool.

Fixpoint lstrip (s : string) : string :=
  match s with
  | EmptyString => EmptyString
  | String c s' => if is_space c then lstrip s' else s
  end.

Fixpoint rev (s : string) : string :=
  match s with
  | EmptyString => EmptyString
  | String c s' => rev s' ++ String c EmptyString
  end.

Definition strip (s : string) : string := rev (lstrip (rev (lstrip s))).

Definition digit_of (c : ascii) : option Z :=
  let n := nat_of_ascii c in
  if (Nat.leb 48 n && Nat.leb n 57)%bool then Some (Z.of_nat (n - 48)) else None.

Fixpoint digits (acc : Z) (s : string) : option Z :=
  match s with
  | EmptyString => Some acc
  | String c s' =>
      match digit_of c with
      | Some d => digits (10 * acc + d) s'
      | None => None
      end
  end.

Definition unsigned (s : string) : option Z :=
  match s with
  | EmptyString => None
  | _ => digits 0 s
  end.

(** [int(s)] in base ten: surrounding white space, an optional sign and
    at least one decimal digit; [None] stands for [ValueError]. *)
Definition int (s : string) : option Z :=
  match strip s with
  | String "+" r => unsigned r
  | String "-" r => option_map Z.opp (unsigned r)
  | t => unsigned t
  end.

(** ['%s' % n] for an integer. *)
Definition of_int (n : Z) : string := NilZero.string_of_int (Z.to_int n).

Definition dquote : string := String (ascii_of_nat 34) EmptyString.
Definition squote : string := String (ascii_of_nat 39) EmptyString.

(** [x in xs] for a list of strings. *)
Definition mem (x : string) (xs : list string) : bool :=
  existsb (String.eqb x) xs.

Fixpoint join (sep : string) (xs : list string) : string :=
  match xs with
  | [] => EmptyString
  | [x] => x
  | x :: xs' => x ++ sep ++ join sep xs'
  end.

(** [repr] of a list of plain strings, as ['%s' % d.keys()] prints it. *)
Definition repr_list (xs : list string) : string :=
  "[" ++ join ", " (map (fun x => squote ++ x ++ squote) xs) ++ "]".

End PyStr.

(** ** constants.py *)

Module constants.
Definition COMMENT_SIGN : string := "#".
Definition HEAD_ROWS : list string := ["HEAD"; "SY01"; "SY02"; "SY03"; "SY04"; "FHEA"].
Definition FOOT_ROWS : list string := ["FOOT"; "FFOO"].
End constants.

(** ** error.py

    Modelled from the spec: the module [dsrf/error.py] is not part of the
    sources at hand.  [RowValidationFailure] is the recoverable row-level
    failure; every validation failure (also one raised by a cell
    validator) is an [error.ValidationError] and is caught once per line.
    [IndexError] and [TypeError] are the Python built-ins. *)

Module error.

Inductive exn : Type :=
| RowValidationFailure (row_number : Z) (file_name message : string)
| CellValidationFailure (description : string)
| IndexError
| KeyError
| TypeError
| OtherError (description : string).

(** [isinstance(e, error.ValidationError)]. *)
Definition is_ValidationError (e : exn) : bool :=
  match e with
  | RowValidationFailure _ _ _ | CellValidationFailure _ => true
  | _ => false
  end.

End error.
Import error.

(** A computation that returns or raises. *)
Definition result (A : Type) : Type := (exn + A)%type.

(** ** Values handed back by cell validators *)

(** A Python float is carried around, never inspected. *)
Inductive pyfloat : Type := Float64 (bits : Z).

#[warnings="-register-all"]
Inductive pyval : Type :=
| PyNone
| PyString (s : string)
| PyInt (n : Z)
| PyFloat (x : pyfloat)
| PyBool (b : bool)
| PyList (xs : list pyval).

(** [xs[i]]. *)
Definition getitem {A : Type} (xs : list A) (i : nat) : result A :=
  match nth_error xs i with
  | Some x => inr x
  | None => inl IndexError
  end.

(** ** A dict with string keys, in insertion order *)

Module dict.
Section Dict.
Variable V : Type.

Definition t : Type := list (string * V).

Fixpoint get (d : t) (k : string) : option V :=
  match d with
  | [] => None
  | (k', v) :: d' => if String.eqb k k' then Some v else get d' k
  end.

(** [k in d]. *)
Definition mem (k : string) (d : t) : bool :=
  match get d k with Some _ => true | None => false end.

(** [d.keys()]. *)
Definition keys (d : t) : list string := nodup string_dec (map fst d).

(** [d[k]]. *)
Definition lookup (d : t) (k : string) : result V :=
  match get d k with
  | Some v => inr v
  | None => inl KeyError
  end.
End Dict.
End dict.

(** ** Protocol buffer messages

    Modelled from the spec: the generated modules [cell_pb2], [row_pb2]
    and [block_pb2] are not part of the sources at hand.  The fields are
    those the parser reads and writes.  A repeated field holds values of
    one type only, and extending it with a value of another type raises
    [TypeError].  For the default block type see [block_pb2.BlockType]. *)

Module cell_pb2.

Inductive CellType : Type := STRING | INTEGER | DECIMAL | BOOLEAN.

Record Cell : Type := mkCell {
  name : string;
  cell_type : CellType;
  string_value : list string;
  integer_value : list Z;
  decimal_value : list pyfloat;
  boolean_value : list bool
}.

(** [Cell(name=n, cell_type=t)]. *)
Definition new (n : string) (t : CellType) : Cell := mkCell n t [] [] [] [].

(** The values of a cell: the repeated field its type selects. *)
Definition values (c : Cell) : list pyval :=
  match cell_type c with
  | STRING => map PyString (string_value c)
  | INTEGER => map PyInt (integer_value c)
  | DECIMAL => map PyFloat (decimal_value c)
  | BOOLEAN => map PyBool (boolean_value c)
  end.

(** What the repeated fields of the other three types hold. *)
Definition foreign_values (c : Cell) : list pyval :=
  match cell_type c with
  | STRING => map PyInt (integer_value c) ++ map PyFloat (decimal_value c) ++ map PyBool (boolean_value c)
  | INTEGER => map PyString (string_value c) ++ map PyFloat (decimal_value c) ++ map PyBool (boolean_value c)
  | DECIMAL => map PyString (string_value c) ++ map PyInt (integer_value c) ++ map PyBool (boolean_value c)
  | BOOLEAN => map PyString (string_value c) ++ map PyInt (integer_value c) ++ map PyFloat (decimal_value c)
  end.

(** A Python value of the type a cell type stands for. *)
Definition has_type (t : CellType) (v : pyval) : bool :=
  match t, v with
  | STRING, PyString _ | INTEGER, PyInt _ | DECIMAL, PyFloat _ | BOOLEAN, PyBool _ => true
  | _, _ => false
  end.

Definition as_string (v : pyval) : option string :=
  match v with PyString s => Some s | _ => None end.
Definition as_integer (v : pyval) : option Z :=
  match v with PyInt n => Some n | _ => None end.
Definition as_decimal (v : pyval) : option pyfloat :=
  match v with PyFloat x => Some x | _ => None end.
Definition as_boolean (v : pyval) : option bool :=
  match v with PyBool b => Some b | _ => None end.

(** The type check of [field.extend(data)]. *)
Fixpoint checked {A : Type} (f : pyval -> option A) (data : list pyval) : result (list A) :=
  match data with
  | [] => inr []
  | v :: data' =>
      match f v with
      | None => inl TypeError
      | Some a =>
          match checked f data' with
          | inr xs => inr (a :: xs)
          | inl e => inl e
          end
      end
  end.

End cell_pb2.

Module row_pb2.

Record Row : Type := mkRow {
  type : string;
  row_number : Z;
  cells : list cell_pb2.Cell
}.

End row_pb2.

Module block_pb2.

(** The source tests a fresh block with [current_block.type ==
    block_pb2.HEAD] (its comment: new blocks default type is HEAD) and
    with [not current_block.type]: HEAD is the default of the field and
    its number is zero. *)
Inductive BlockType : Type := HEAD | BODY | FOOT.

Definition BlockType_value (t : BlockType) : Z :=
  match t with HEAD => 0 | BODY => 1 | FOOT => 2 end.

(** [bool(t)] of an enum number. *)
Definition truthy (t : BlockType) : bool := negb (BlockType_value t =? 0).

Record Block : Type := mkBlock {
  type : BlockType;
  number : Z;
  version : string;
  file_number : Z;
  rows : list row_pb2.Row
}.

(** [Block(file_number=n)]. *)
Definition new (n : Z) : Block := mkBlock HEAD 0 EmptyString n [].

Definition set_type (t : BlockType) (b : Block) : Block :=
  mkBlock t (number b) (version b) (file_number b) (rows b).
Definition set_number (n : Z) (b : Block) : Block :=
  mkBlock (type b) n (version b) (file_number b) (rows b).
Definition set_version (v : string) (b : Block) : Block :=
  mkBlock (type b) (number b) v (file_number b) (rows b).
(** [b.rows.extend(rs)]. *)
Definition extend_rows (rs : list row_pb2.Row) (b : Block) : Block :=
  mkBlock (type b) (number b) (version b) (file_number b) (rows b ++ rs).

End block_pb2.

(** ** Cell validators

    The validators are supplied by the caller.  [validate_value] gets the
    cell content, the row number, the file name and the block number it is
    called with; [None] in a row's validator list is a column without a
    validator. *)

Inductive block_arg : Type :=
| BlockStr (row_type : string)
| BlockInt (block_number : Z).

Record CellValidator : Type := mkCellValidator {
  cell_name : string;
  get_cell_type : cell_pb2.CellType;
  validate_value : string -> Z -> string -> block_arg -> result pyval
}.

Definition row_validators : Type := dict.t (list (option CellValidator)).

(** ** The parser state and its monad

    [parse_file] is a generator with two local variables, [row_number]
    and [current_block]; the blocks it has yielded so far, what it sent to
    the logger and the calls it made to cell validators are recorded next
    to them.  A computation returns or raises, and in both cases leaves a
    state behind: what was assigned before an exception stays assigned. *)

Inductive log_entry : Type :=
| InfoStartHead (file_number : Z)
| InfoStartFoot (file_number : Z)
| InfoStartBlock (block_number file_number : Z)
| LogError (e : exn).

Record validator_call : Type := mkCall {
  call_cell_name : string;
  call_content : string;
  call_row_number : Z;
  call_file_name : string;
  call_block_number : block_arg
}.

Record pstate : Type := mkState {
  row_number : Z;
  current_block : block_pb2.Block;
  yielded : list block_pb2.Block;
  log : list log_entry;
  calls : list validator_call
}.

Definition M (A : Type) : Type := pstate -> result A * pstate.

Definition ret {A : Type} (a : A) : M A := fun s => (inr a, s).

Definition raise {A : Type} (e : exn) : M A := fun s => (inl e, s).

Definition bind {A B : Type} (m : M A) (k : A -> M B) : M B :=
  fun s =>
    match m s with
    | (inr a, s') => k a s'
    | (inl e, s') => (inl e, s')
    end.

Definition lift {A : Type} (r : result A) : M A := fun s => (r, s).

Definition gets {A : Type} (f : pstate -> A) : M A := fun s => (inr (f s), s).

Definition modify (f : pstate -> pstate) : M unit := fun s => (inr tt, f s).

(** [try: m  except error.ValidationError as e: h e]. *)
Definition try_except_ValidationError {A : Type} (m : M A) (h : exn -> M A) : M A :=
  fun s =>
    match m s with
    | (inl e, s') => if is_ValidationError e then h e s' else (inl e, s')
    | r => r
    end.

Declare Scope parser_scope.
Delimit Scope parser_scope with parser.
Notation "x <- m ;; k" := (bind m (fun x => k))
  (at level 61, m at next level, right associativity) : parser_scope.
Notation "m ;; k" := (bind m (fun _ => k))
  (at level 61, right associativity) : parser_scope.
Open Scope parser_scope.

Definition when (b : bool) (m : M unit) : M unit := if b then m else ret tt.

Definition set_row_number (n : Z) : M unit :=
  modify (fun s => mkState n (current_block s) (yielded s) (log s) (calls s)).

Definition set_current_block (b : block_pb2.Block) : M unit :=
  modify (fun s => mkState (row_number s) b (yielded s) (log s) (calls s)).

(** [yield b]. *)
Definition yield (b : block_pb2.Block) : M unit :=
  modify (fun s => mkState (row_number s) (current_block s) (yielded s ++ [b]) (log s) (calls s)).

Definition logger (e : log_entry) : M unit :=
  modify (fun s => mkState (row_number s) (current_block s) (yielded s) (log s ++ [e]) (calls s)).

Definition record_call (c : validator_call) : M unit :=
  modify (fun s => mkState (row_number s) (current_block s) (yielded s) (log s) (calls s ++ [c])).

(** [current_block.field = ...]. *)
Definition update_current_block (f : block_pb2.Block -> block_pb2.Block) : M unit :=
  modify (fun s => mkState (row_number s) (f (current_block s)) (yielded s) (log s) (calls s)).

(** ** class DSRFFileParser *)

Module DSRFFileParser.
Section Methods.

(** [self.file_name]. *)
Variable file_name : string.

(** [get_block_number(line, row_number)].  [int(line[1])] raises
    [IndexError] when the line has no second field and [ValueError]
    when it is not a number; the handler of both formats its message
    with [line[1].upper()], which raises [IndexError] again in the first
    case. *)
Definition block_id_message (value : string) (row_number : Z) : string :=
  "The block id " ++ PyStr.dquote ++ value ++ PyStr.dquote ++ " in line number "
    ++ PyStr.of_int row_number ++ " was expected to be an integer.".

Definition get_block_number (line : list string) (row_number : Z) : result Z :=
  match getitem line 1 with
  | inl e => inl e
  | inr field =>
      match PyStr.int field with
      | Some n => inr n
      | None =>
          inl (RowValidationFailure row_number file_name
                 (block_id_message (PyStr.upper field) row_number))
      end
  end.

(** [cell_parsed_data not in (None, '')] is the negation of this. *)
Definition is_absent (cell_parsed_data : pyval) : bool :=
  match cell_parsed_data with
  | PyNone => true
  | PyString s => String.eqb s EmptyString
  | _ => false
  end.

(** [isinstance(cell_parsed_data, list)] or a one-element list. *)
Definition as_list (cell_parsed_data : pyval) : list pyval :=
  match cell_parsed_data with
  | PyList xs => xs
  | v => [v]
  end.

(** [get_cell_object(cell_validator, cell_parsed_data)]. *)
Definition get_cell_object (cell_validator : CellValidator) (cell_parsed_data : pyval)
  : result cell_pb2.Cell :=
  let n := cell_name cell_validator in
  let t := get_cell_type cell_validator in
  let data := as_list cell_parsed_data in
  match t with
  | cell_pb2.STRING =>
      match cell_pb2.checked cell_pb2.as_string data with
      | inr xs => inr (cell_pb2.mkCell n t xs [] [] [])
      | inl e => inl e
      end
  | cell_pb2.INTEGER =>
      match cell_pb2.checked cell_pb2.as_integer data with
      | inr xs => inr (cell_pb2.mkCell n t [] xs [] [])
      | inl e => inl e
      end
  | cell_pb2.DECIMAL =>
      match cell_pb2.checked cell_pb2.as_decimal data with
      | inr xs => inr (cell_pb2.mkCell n t [] [] xs [])
      | inl e => inl e
      end
  | cell_pb2.BOOLEAN =>
      match cell_pb2.checked cell_pb2.as_boolean data with
      | inr xs => inr (cell_pb2.mkCell n t [] [] [] xs)
      | inl e => inl e
      end
  end.

(** The loop of [get_row_object] over [zip(row_validator, line)]. *)
Fixpoint row_cells (columns : list (option CellValidator * string))
    (row_number : Z) (block_number : block_arg) : M (list cell_pb2.Cell) :=
  match columns with
  | [] => ret []
  | (None, _) :: columns' => row_cells columns' row_number block_number
  | (Some cell_validator, cell_content) :: columns' =>
      record_call (mkCall (cell_name cell_validator) cell_content row_number
                     file_name block_number) ;;
      cell_parsed_data <-
        lift (validate_value cell_validator cell_content row_number file_name block_number) ;;
      if is_absent cell_parsed_data
      then row_cells columns' row_number block_number
      else
        cell <- lift (get_cell_object cell_validator cell_parsed_data) ;;
        cells <- row_cells columns' row_number block_number ;;
        ret (cell :: cells)
  end.

(** [get_row_object(row_validator, line, row_number, block_number)]. *)
Definition get_row_object (row_validator : list (option CellValidator))
    (line : list string) (row_number : Z) (block_number : block_arg) : M row_pb2.Row :=
  first <- lift (getitem line 0) ;;
  cells <- row_cells (combine row_validator line) row_number block_number ;;
  ret (row_pb2.mkRow (PyStr.upper first) row_number cells).

(** [_get_row_type(line, row_validators_list, row_number)]. *)
Definition unknown_row_type_message (row_type : string) (valid : list string) : string :=
  "Row type " ++ row_type ++ " does not exist in the XSD. Valid row types are: "
    ++ PyStr.repr_list valid ++ ". ".

Definition _get_row_type (line : list string) (row_validators_list : row_validators)
    (row_number : Z) : result string :=
  match line with
  | [] =>
      inl (RowValidationFailure row_number file_name
             "It is not permissible to include empty Records.")
  | first :: _ =>
      let row_type := PyStr.upper first in
      if negb (dict.mem row_type row_validators_list)
      then inl (RowValidationFailure row_number file_name
                  (unknown_row_type_message row_type (dict.keys row_validators_list)))
      else inr row_type
  end.

(** [is_end_of_block(line, row_number, current_block)]. *)
Definition is_end_of_block (line : list string) (row_number : Z)
    (current_block : block_pb2.Block) : result bool :=
  match getitem line 0 with
  | inl e => inl e
  | inr first =>
      match block_pb2.type current_block with
      | block_pb2.HEAD => inr (negb (PyStr.mem first constants.HEAD_ROWS))
      | block_pb2.FOOT => inr (negb (PyStr.mem first constants.FOOT_ROWS))
      | block_pb2.BODY =>
          if PyStr.mem first constants.FOOT_ROWS then inr true
          else
            match get_block_number line row_number with
            | inr n => inr (negb (block_pb2.number current_block =? n))
            | inl e => inl e
            end
      end
  end.

(** The suite of the [try] statement in [parse_file]. *)
Definition try_suite (row_validators_list : row_validators) (file_number : Z)
    (line : list string) : M unit :=
  n <- gets row_number ;;
  row_type <- lift (_get_row_type line row_validators_list n) ;;
  open <- gets current_block ;;
  end_of_block <- lift (is_end_of_block line n open) ;;
  when end_of_block
    (yield open ;;
     set_current_block (block_pb2.new file_number)) ;;
  if (PyStr.mem row_type constants.HEAD_ROWS || PyStr.mem row_type constants.FOOT_ROWS)%bool
  then
    update_current_block (block_pb2.set_type block_pb2.HEAD) ;;
    when (PyStr.mem row_type constants.FOOT_ROWS)
      (logger (InfoStartFoot file_number) ;;
       update_current_block (block_pb2.set_type block_pb2.FOOT)) ;;
    when (String.eqb row_type "HEAD")
      (v <- lift (getitem line 1) ;;
       update_current_block (block_pb2.set_version v)) ;;
    row_validator <- lift (dict.lookup row_validators_list row_type) ;;
    row <- get_row_object row_validator line n (BlockStr row_type) ;;
    update_current_block (block_pb2.extend_rows [row])
  else
    block_number <- lift (get_block_number line n) ;;
    row_validator <- lift (dict.lookup row_validators_list row_type) ;;
    row <- get_row_object row_validator line n (BlockInt block_number) ;;
    open' <- gets current_block ;;
    when (negb (block_pb2.truthy (block_pb2.type open')))
      (update_current_block (block_pb2.set_type block_pb2.BODY) ;;
       update_current_block (block_pb2.set_number block_number) ;;
       logger (InfoStartBlock block_number file_number)) ;;
    update_current_block (block_pb2.extend_rows [row]).

(** One turn of the [for] loop of [parse_file]. *)
Definition loop_body (row_validators_list : row_validators) (file_number : Z)
    (line : list string) : M unit :=
  n <- gets row_number ;;
  set_row_number (n + 1) ;;
  first <- lift (getitem line 0) ;;
  if PyStr.startswith first constants.COMMENT_SIGN then ret tt
  else
    try_except_ValidationError
      (try_suite row_validators_list file_number line)
      (fun e => logger (LogError e)).

Fixpoint for_lines (row_validators_list : row_validators) (file_number : Z)
    (lines : list (list string)) : M unit :=
  match lines with
  | [] => ret tt
  | line :: lines' =>
      loop_body row_validators_list file_number line ;;
      for_lines row_validators_list file_number lines'
  end.

(** The state in which the loop starts. *)
Definition start (file_number : Z) : pstate :=
  mkState 0 (block_pb2.new file_number) [] [InfoStartHead file_number] [].

(** [parse_file(row_validators_list, file_number)], the lines being
    those [csv.reader] gives for the file. *)
Definition parse_file (row_validators_list : row_validators) (file_number : Z)
    (lines : list (list string)) : result unit * pstate :=
  (for_lines row_validators_list file_number lines ;;
   open <- gets current_block ;;
   yield open) (start file_number).

End Methods.
End DSRFFileParser.
Import DSRFFileParser.

(** * Properties *)

(** ** What a row object is made of *)

Section RowObjects.

Variable file_name : string.

(** [s] with more validator calls recorded. *)
Definition add_calls (s : pstate) (cs : list validator_call) : pstate :=
  mkState (row_number s) (current_block s) (yielded s) (log s) (calls s ++ cs).

Lemma add_calls_nil s : add_calls s [] = s.
Proof. destruct s; unfold add_calls; simpl; now rewrite app_nil_r. Qed.

Lemma add_calls_app s cs cs' : add_calls (add_calls s cs) cs' = add_calls s (cs ++ cs').
Proof. unfold add_calls; simpl; now rewrite app_assoc. Qed.

(** A cell built from one of the columns: its validator was called on
    the column's content and returned data that is neither [None] nor
    the empty string. *)
Definition cell_made_from (columns : list (option CellValidator * string))
    (row_number : Z) (block_number : block_arg) (c : cell_pb2.Cell) : Prop :=
  exists cell_validator cell_content cell_parsed_data,
    In (Some cell_validator, cell_content) columns /\
    validate_value cell_validator cell_content row_number file_name block_number
      = inr cell_parsed_data /\
    is_absent cell_parsed_data = false /\
    get_cell_object cell_validator cell_parsed_data = inr c.

(** A recorded call made for one of the columns. *)
Definition call_made_for (columns : list (option CellValidator * string))
    (row_number : Z) (block_number : block_arg) (c : validator_call) : Prop :=
  call_row_number c = row_number /\
  call_file_name c = file_name /\
  call_block_number c = block_number /\
  exists cell_validator,
    In (Some cell_validator, call_content c) columns /\
    call_cell_name c = cell_name cell_validator.

Lemma cell_made_from_cons col columns n bn c :
  cell_made_from columns n bn c -> cell_made_from (col :: columns) n bn c.
Proof.
  intros (v & content & data & Hin & H); exists v, content, data.
  split; [now right | exact H].
Qed.

Lemma call_made_for_cons col columns n bn c :
  call_made_for columns n bn c -> call_made_for (col :: columns) n bn c.
Proof.
  intros (H1 & H2 & H3 & v & Hin & H4); repeat split; trivial.
  exists v; split; [now right | exact H4].
Qed.

Lemma row_cells_spec columns n bn : forall s,
  exists cs,
    snd (row_cells file_name columns n bn s) = add_calls s cs /\
    Forall (call_made_for columns n bn) cs /\
    forall cells, fst (row_cells file_name columns n bn s) = inr cells ->
      Forall (cell_made_from columns n bn) cells.
Proof.
  induction columns as [|[[v|] content] columns IH]; intros s; simpl.
  - exists []; rewrite add_calls_nil; repeat split; auto.
    intros cells H; inversion H; constructor.
  - unfold bind, record_call, modify, lift; simpl.
    set (s1 := mkState _ _ _ _ _).
    assert (Hs1 : s1 = add_calls s [mkCall (cell_name v) content n file_name bn])
      by reflexivity.
    assert (Hcall : call_made_for ((Some v, content) :: columns) n bn
                      (mkCall (cell_name v) content n file_name bn)).
    { repeat split; simpl; trivial. exists v; split; [now left | trivial]. }
    destruct (validate_value v content n file_name bn) as [e|data] eqn:Hv.
    + eexists; split; [exact Hs1|]; split; [now constructor|discriminate].
    + destruct (is_absent data) eqn:Habs.
      * destruct (IH s1) as (cs & Hsnd & Hcs & Hcells).
        exists (mkCall (cell_name v) content n file_name bn :: cs).
        split; [rewrite Hsnd, Hs1, add_calls_app; reflexivity|].
        split.
        { constructor; trivial.
          eapply Forall_impl; [|exact Hcs]; intros; now apply call_made_for_cons. }
        intros cells H; apply Hcells in H.
        eapply Forall_impl; [|exact H]; intros; now apply cell_made_from_cons.
      * destruct (get_cell_object v data) as [e|cell] eqn:Hcell.
        { eexists; split; [exact Hs1|]; split; [now constructor|discriminate]. }
        destruct (IH s1) as (cs & Hsnd & Hcs & Hcells).
        exists (mkCall (cell_name v) content n file_name bn :: cs).
        destruct (row_cells file_name columns n bn s1) as [[e|cells'] s2]; simpl in *.
        { split; [rewrite Hsnd, Hs1, add_calls_app; reflexivity|].
          split; [|discriminate].
          constructor; trivial.
          eapply Forall_impl; [|exact Hcs]; intros; now apply call_made_for_cons. }
        unfold ret; simpl.
        split; [rewrite Hsnd, Hs1, add_calls_app; reflexivity|].
        split.
        { constructor; trivial.
          eapply Forall_impl; [|exact Hcs]; intros; now apply call_made_for_cons. }
        intros cells H; inversion H; subst; constructor.
        { exists v, content, data; repeat split; trivial; now left. }
        specialize (Hcells _ eq_refl).
        eapply Forall_impl; [|exact Hcells]; intros; now apply cell_made_from_cons.
  - destruct (IH s) as (cs & Hsnd & Hcs & Hcells).
    exists cs; split; [exact Hsnd|]; split.
    + eapply Forall_impl; [|exact Hcs]; intros; now apply call_made_for_cons.
    + intros cells H; apply Hcells in H.
      eapply Forall_impl; [|exact H]; intros; now apply cell_made_from_cons.
Qed.

(** [get_row_object] only records calls; the row it returns carries the
    upper-cased first field, the row number it was given and cells made
    from the zipped columns. *)
Lemma get_row_object_spec row_validator line n bn s :
  exists cs,
    snd (get_row_object file_name row_validator line n bn s) = add_calls s cs /\
    Forall (call_made_for (combine row_validator line) n bn) cs /\
    forall row, fst (get_row_object file_name row_validator line n bn s) = inr row ->
      exists first,
        hd_error line = Some first /\
        row_pb2.type row = PyStr.upper first /\
        row_pb2.row_number row = n /\
        Forall (cell_made_from (combine row_validator line) n bn) (row_pb2.cells row).
Proof.
  unfold get_row_object, bind, lift, getitem.
  destruct line as [|first rest]; simpl.
  - exists []; rewrite add_calls_nil; repeat split; auto; discriminate.
  - destruct (row_cells_spec (combine row_validator (first :: rest)) n bn s)
      as (cs & Hsnd & Hcs & Hcells).
    exists cs.
    destruct (row_cells file_name (combine row_validator (first :: rest)) n bn s)
      as [[e|cells] s1]; simpl in *.
    + repeat split; trivial; discriminate.
    + unfold ret; simpl; repeat split; trivial.
      intros row H; inversion H; subst; simpl.
      exists first; repeat split; auto.
Qed.

End RowObjects.
(** ** One line of the file *)

Section Suite.

Variable file_name : string.
Variable row_validators_list : row_validators.
Variable file_number : Z.

Local Arguments PyStr.mem : simpl never.
Local Arguments String.eqb : simpl never.

(** All rows stored so far, in the order of the blocks. *)
Definition all_rows (s : pstate) : list row_pb2.Row :=
  concat (map block_pb2.rows (yielded s)) ++ block_pb2.rows (current_block s).

(** HEAD-class or FOOT-class, as line 170 of the source tests it. *)
Definition head_or_foot (row_type : string) : bool :=
  (PyStr.mem row_type constants.HEAD_ROWS || PyStr.mem row_type constants.FOOT_ROWS)%bool.

(** The block number argument that goes with a line: the row type for
    a HEAD-class or FOOT-class row, the integer of the second field for
    any other row. *)
Definition block_arg_of (line : list string) (bn : block_arg) : Prop :=
  exists first,
    hd_error line = Some first /\
    if head_or_foot (PyStr.upper first) then bn = BlockStr (PyStr.upper first)
    else exists field n,
        nth_error line 1 = Some field /\ PyStr.int field = Some n /\ bn = BlockInt n.

Definition call_of (line : list string) (n : Z) (c : validator_call) : Prop :=
  exists first row_validator bn,
    hd_error line = Some first /\
    dict.get row_validators_list (PyStr.upper first) = Some row_validator /\
    block_arg_of line bn /\
    call_made_for file_name (combine row_validator line) n bn c.

Definition row_of (line : list string) (n : Z) (row : row_pb2.Row) : Prop :=
  exists first row_validator bn,
    hd_error line = Some first /\
    dict.get row_validators_list (PyStr.upper first) = Some row_validator /\
    block_arg_of line bn /\
    row_pb2.type row = PyStr.upper first /\
    row_pb2.row_number row = n /\
    Forall (cell_made_from file_name (combine row_validator line) n bn) (row_pb2.cells row) /\
    exists s, fst (get_row_object file_name row_validator line n bn s) = inr row.

Lemma _get_row_type_inr line n row_type :
  _get_row_type file_name line row_validators_list n = inr row_type ->
  exists first row_validator,
    hd_error line = Some first /\ row_type = PyStr.upper first /\
    dict.get row_validators_list row_type = Some row_validator.
Proof.
  unfold _get_row_type, dict.mem; destruct line as [|first rest]; [discriminate|].
  destruct (dict.get row_validators_list (PyStr.upper first)) as [rv|] eqn:Hget;
    simpl; [|discriminate].
  intros H; inversion H; subst; now exists first, rv.
Qed.

Lemma get_block_number_inr line n k :
  get_block_number file_name line n = inr k ->
  exists field, nth_error line 1 = Some field /\ PyStr.int field = Some k.
Proof.
  unfold get_block_number, getitem.
  destruct (nth_error line 1) as [field|]; [|discriminate].
  destruct (PyStr.int field) as [k'|] eqn:Hint; [|discriminate].
  intros H; inversion H; subst; now exists field.
Qed.

Lemma lookup_inr (d : row_validators) k v :
  dict.lookup d k = inr v -> dict.get d k = Some v.
Proof. unfold dict.lookup; destruct (dict.get d k); now inversion 1. Qed.

Ltac unfold_M :=
  unfold try_suite, bind, lift, gets, when, yield, set_current_block,
    update_current_block, logger, modify, ret.

Ltac row_object :=
  match goal with
  | |- context [get_row_object ?f ?rv ?l ?n ?bn ?s] =>
      let cs := fresh "cs" in
      let Hs := fresh "Hs" in
      let Hc := fresh "Hc" in
      let Hr := fresh "Hr" in
      let e := fresh "e" in
      let row := fresh "row" in
      let s' := fresh "s'" in
      destruct (get_row_object_spec f rv l n bn s) as (cs & Hs & Hc & Hr);
      destruct (get_row_object f rv l n bn s) as [[e|row] s'];
      simpl in Hs; subst s'; [clear Hr | specialize (Hr _ eq_refl)]
  end.

Ltac split_match :=
  match goal with
  | |- context [match ?x with _ => _ end] =>
      lazymatch x with
      | context [get_row_object] => fail
      | context [match _ with _ => _ end] => fail
      | _ => destruct x eqn:?
      end
  end.

Ltac run_suite := unfold_M; simpl; repeat (first [row_object | split_match]; simpl).

Ltac invert_suite :=
  repeat match goal with
    | H : _get_row_type _ _ _ _ = inr _ |- _ =>
        apply _get_row_type_inr in H; destruct H as (? & ? & ? & ? & ?); subst
    | H : get_block_number _ _ _ = inr _ |- _ =>
        apply get_block_number_inr in H; destruct H as (? & ? & ?)
    | H : dict.lookup _ _ = inr _ |- _ => apply lookup_inr in H
    | H : ?t = Some _, H' : ?t = Some _ |- _ =>
        rewrite H in H'; inversion H'; subst; clear H'
    | H : exists _, _ |- _ => destruct H
    | H : _ /\ _ |- _ => destruct H
    end.

Lemma try_suite_row_number line s :
  row_number (snd (try_suite file_name row_validators_list file_number line s))
    = row_number s.
Proof. run_suite; trivial. Qed.

Ltac absurd_class :=
  match goal with
  | H : (_ || true)%bool = false |- _ => rewrite orb_true_r in H; discriminate
  end.

Ltac decide_class :=
  unfold head_or_foot;
  repeat match goal with
    | H : PyStr.mem _ _ = _ |- _ => rewrite H
    | H : (_ || _)%bool = _ |- _ => rewrite H
    end;
  rewrite ?orb_true_r; simpl.

Ltac block_arg :=
  match goal with
  | H : hd_error ?line = Some ?x |- block_arg_of ?line _ =>
      exists x; split; [exact H|]; decide_class; eauto
  end.

Lemma try_suite_calls line s :
  exists cs,
    calls (snd (try_suite file_name row_validators_list file_number line s))
      = (calls s ++ cs)%list /\
    Forall (call_of line (row_number s)) cs.
Proof.
  run_suite; try (exists []; rewrite app_nil_r; split; [reflexivity|constructor]).
  all: invert_suite; try absurd_class.
  all: eexists; split; [reflexivity|].
  all: eapply Forall_impl; [|eassumption].
  all: intros c Hcall; do 3 eexists.
  all: split; [eassumption|].
  all: split; [eassumption|split; [|exact Hcall]].
  all: block_arg.
Qed.

Ltac norm_rows :=
  unfold all_rows; simpl; rewrite ?map_app, ?concat_app; simpl;
  rewrite ?app_nil_r, <- ?app_assoc; simpl.

(** As [row_object], keeping the equation of the call. *)
Ltac row_object_eq :=
  match goal with
  | |- context [get_row_object ?f ?rv ?l ?n ?bn ?s] =>
      let cs := fresh "cs" in
      let Hs := fresh "Hs" in
      let Hc := fresh "Hc" in
      let Hr := fresh "Hr" in
      let Hro := fresh "Hro" in
      let e := fresh "e" in
      let row := fresh "row" in
      let s' := fresh "s'" in
      destruct (get_row_object_spec f rv l n bn s) as (cs & Hs & Hc & Hr);
      destruct (get_row_object f rv l n bn s) as [[e|row] s'] eqn:Hro;
      simpl in Hs; subst s'; [clear Hr | specialize (Hr _ eq_refl)]
  end.

Lemma try_suite_rows line s :
  let r := try_suite file_name row_validators_list file_number line s in
  all_rows (snd r) = all_rows s \/
  (fst r = inr tt /\
   exists row, all_rows (snd r) = (all_rows s ++ [row])%list /\
               row_of line (row_number s) row).
Proof.
  unfold_M; simpl; repeat (first [row_object_eq | split_match]; simpl).
  all: try (left; norm_rows; reflexivity).
  all: invert_suite; try absurd_class.
  all: right; split; [reflexivity|]; eexists; split; [norm_rows; reflexivity|].
  all: do 3 eexists.
  all: split; [eassumption|split; [eassumption|split; [|]]].
  all: try block_arg.
  all: split; [eassumption|split; [eassumption|split; [eassumption|]]].
  all: eexists; match goal with H : get_row_object _ _ _ _ _ _ = _ |- _ => rewrite H end.
  all: reflexivity.
Qed.


(** [try_suite] yields nothing and extends the open block, or yields
    the open block and starts a new one. *)
Lemma try_suite_blocks line s :
  let s' := snd (try_suite file_name row_validators_list file_number line s) in
  (yielded s' = yielded s /\
   exists new, block_pb2.rows (current_block s')
               = (block_pb2.rows (current_block s) ++ new)%list) \/
  (yielded s' = (yielded s ++ [current_block s])%list /\
   is_end_of_block file_name line (row_number s) (current_block s) = inr true).
Proof.
  run_suite.
  all: try (left; split; [reflexivity|]; exists []; now rewrite app_nil_r).
  all: try (left; split; [reflexivity|]; eexists; reflexivity).
  all: right; split; trivial.
Qed.

Lemma try_suite_closes line s row_type :
  _get_row_type file_name line row_validators_list (row_number s) = inr row_type ->
  is_end_of_block file_name line (row_number s) (current_block s) = inr true ->
  yielded (snd (try_suite file_name row_validators_list file_number line s))
    = (yielded s ++ [current_block s])%list.
Proof. intros Hrt Heob; run_suite; congruence. Qed.

Lemma app_singleton_neq (A : Type) (l : list A) (x : A) : (l ++ [x])%list <> l.
Proof.
  intros H; apply (f_equal (@List.length A)) in H.
  rewrite length_app in H; simpl in H; lia.
Qed.

Lemma head_rows_upper first :
  PyStr.mem first constants.HEAD_ROWS = true -> PyStr.upper first = first.
Proof.
  unfold PyStr.mem, constants.HEAD_ROWS; simpl.
  repeat match goal with
    | |- context [String.eqb first ?k] =>
        destruct (String.eqb_spec first k) as [->|_]; [intros _; reflexivity|simpl]
    end.
  intros H; discriminate H.
Qed.

Lemma head_rows_not_foot x :
  PyStr.mem x constants.HEAD_ROWS = true -> PyStr.mem x constants.FOOT_ROWS = false.
Proof.
  unfold PyStr.mem, constants.HEAD_ROWS; simpl.
  repeat match goal with
    | |- context [String.eqb x ?k] =>
        destruct (String.eqb_spec x k) as [->|_]; [intros _; reflexivity|simpl]
    end.
  intros H; discriminate H.
Qed.

Lemma is_end_of_block_head line n b :
  block_pb2.type b = block_pb2.HEAD ->
  is_end_of_block file_name line n b
    = match line with
      | [] => inl IndexError
      | first :: _ => inr (negb (PyStr.mem first constants.HEAD_ROWS))
      end.
Proof. unfold is_end_of_block; intros ->; now destruct line. Qed.

(** The type of the open block stays HEAD on a line that does not close
    a HEAD block. *)
Lemma try_suite_keeps_head line s :
  let s' := snd (try_suite file_name row_validators_list file_number line s) in
  block_pb2.type (current_block s) = block_pb2.HEAD ->
  yielded s' = yielded s ->
  block_pb2.type (current_block s') = block_pb2.HEAD.
Proof.
  run_suite; intros Ht Hy; trivial.
  all: try (now apply app_singleton_neq in Hy).
  all: rewrite (is_end_of_block_head line (row_number s) _ Ht) in *.
  all: invert_suite.
  all: destruct line as [|first rest]; [discriminate|]; simpl in *.
  all: repeat match goal with
         | H : Some _ = Some _ |- _ => inversion H; subst; clear H
         | H : inr _ = inr _ |- _ => inversion H; subst; clear H
         end.
  all: match goal with
       | H : negb ?b = false |- _ =>
           destruct b eqn:Hhead; [clear H|discriminate]
       end.
  all: pose proof (head_rows_upper _ Hhead) as Hup; rewrite Hup in *.
  all: pose proof (head_rows_not_foot _ Hhead) as Hfoot.
  all: try congruence.
  all: rewrite Hhead in *; simpl in *; try discriminate.
Qed.

(** *** One turn of the loop *)

(** The line is a comment line. *)
Definition is_comment (line : list string) : bool :=
  match line with
  | first :: _ => PyStr.startswith first constants.COMMENT_SIGN
  | [] => false
  end.

Ltac run_loop_body :=
  unfold loop_body, try_except_ValidationError, bind, lift, gets, set_row_number,
    logger, modify, ret, getitem; simpl.

Lemma loop_body_row_number line s :
  row_number (snd (loop_body file_name row_validators_list file_number line s))
    = row_number s + 1.
Proof.
  run_loop_body.
  destruct line as [|first rest]; simpl; trivial.
  destruct (PyStr.startswith first constants.COMMENT_SIGN); simpl; trivial.
  match goal with |- context [try_suite ?f ?t ?n ?l ?s] =>
    pose proof (try_suite_row_number l s) as H;
    destruct (try_suite f t n l s) as [[e|[]] s']
  end; simpl in *; trivial.
  destruct (is_ValidationError e); simpl; trivial.
Qed.

Lemma loop_body_calls line s :
  exists cs,
    calls (snd (loop_body file_name row_validators_list file_number line s))
      = (calls s ++ cs)%list /\
    Forall (call_of line (row_number s + 1)) cs.
Proof.
  run_loop_body.
  destruct line as [|first rest]; simpl.
  { exists []; rewrite app_nil_r; split; [reflexivity|constructor]. }
  destruct (PyStr.startswith first constants.COMMENT_SIGN); simpl.
  { exists []; rewrite app_nil_r; split; [reflexivity|constructor]. }
  match goal with |- context [try_suite ?f ?t ?n ?l ?s] =>
    pose proof (try_suite_calls l s) as H;
    destruct (try_suite f t n l s) as [[e|[]] s']
  end; simpl in *; trivial.
  destruct (is_ValidationError e); simpl; trivial.
Qed.

Lemma loop_body_rows line s :
  let r := loop_body file_name row_validators_list file_number line s in
  all_rows (snd r) = all_rows s \/
  (fst r = inr tt /\ is_comment line = false /\
   exists row, all_rows (snd r) = (all_rows s ++ [row])%list /\
               row_of line (row_number s + 1) row).
Proof.
  run_loop_body.
  destruct line as [|first rest]; simpl; [now left|].
  destruct (PyStr.startswith first constants.COMMENT_SIGN) eqn:Hc; simpl; [now left|].
  match goal with |- context [try_suite ?f ?t ?n ?l ?s] =>
    pose proof (try_suite_rows l s) as H;
    destruct (try_suite f t n l s) as [[e|[]] s']
  end; simpl in *.
  - destruct H as [H|[H _]]; [|discriminate].
    destruct (is_ValidationError e); simpl; now left.
  - destruct H as [H|(_ & H)]; [now left|right; auto].
Qed.

Lemma loop_body_blocks line s :
  let s' := snd (loop_body file_name row_validators_list file_number line s) in
  (yielded s' = yielded s /\
   exists new, block_pb2.rows (current_block s')
               = (block_pb2.rows (current_block s) ++ new)%list) \/
  yielded s' = (yielded s ++ [current_block s])%list.
Proof.
  run_loop_body.
  assert (Hsame : forall b : block_pb2.Block,
             exists new : list row_pb2.Row,
               block_pb2.rows b = (block_pb2.rows b ++ new)%list)
    by (intros b; exists []; now rewrite app_nil_r).
  destruct line as [|first rest]; simpl; [left; auto|].
  destruct (PyStr.startswith first constants.COMMENT_SIGN) eqn:Hc; simpl; [left; auto|].
  match goal with |- context [try_suite ?f ?t ?n ?l ?s] =>
    pose proof (try_suite_blocks l s) as H;
    destruct (try_suite f t n l s) as [[e|[]] s']
  end; simpl in *.
  - destruct (is_ValidationError e); simpl; tauto.
  - tauto.
Qed.

Lemma loop_body_keeps_head line s :
  let s' := snd (loop_body file_name row_validators_list file_number line s) in
  block_pb2.type (current_block s) = block_pb2.HEAD ->
  yielded s' = yielded s ->
  block_pb2.type (current_block s') = block_pb2.HEAD.
Proof.
  run_loop_body.
  destruct line as [|first rest]; simpl; trivial.
  destruct (PyStr.startswith first constants.COMMENT_SIGN) eqn:Hc; simpl; trivial.
  match goal with |- context [try_suite ?f ?t ?n ?l ?s] =>
    pose proof (try_suite_keeps_head l s) as H;
    destruct (try_suite f t n l s) as [[e|[]] s']
  end; simpl in *; trivial.
  destruct (is_ValidationError e); simpl; trivial.
Qed.

End Suite.

(** ** The whole file *)

Section Loop.

Variable file_name : string.
Variable row_validators_list : row_validators.
Variable file_number : Z.
Variable lines : list (list string).


(** Row numbers increase strictly. *)
Definition before (r r' : row_pb2.Row) : Prop :=
  row_pb2.row_number r < row_pb2.row_number r'.

(** The physical line with the 1-based number [n]. *)
Definition line_at (n : Z) : option (list string) :=
  if n <=? 0 then None else nth_error lines (Z.to_nat (n - 1)).

(** A row that was made from the line its row number names, among the
    first [bound] lines. *)
Definition row_in (bound : Z) (r : row_pb2.Row) : Prop :=
  row_pb2.row_number r <= bound /\
  exists line,
    line_at (row_pb2.row_number r) = Some line /\
    is_comment line = false /\
    row_of file_name row_validators_list line (row_pb2.row_number r) r.

(** A validator call that was made for the line its row number names. *)
Definition call_in (bound : Z) (c : validator_call) : Prop :=
  call_row_number c <= bound /\
  exists line,
    line_at (call_row_number c) = Some line /\
    call_of file_name row_validators_list line (call_row_number c) c.

Record Inv (s : pstate) : Prop := mkInv {
  inv_row_number : 0 <= row_number s;
  inv_rows : Forall (row_in (row_number s)) (all_rows s);
  inv_sorted : StronglySorted before (all_rows s);
  inv_calls : Forall (call_in (row_number s)) (calls s)
}.

Lemma row_in_mono bound bound' r : bound <= bound' -> row_in bound r -> row_in bound' r.
Proof. intros Hle [H1 H2]; split; [lia|exact H2]. Qed.

Lemma call_in_mono bound bound' c : bound <= bound' -> call_in bound c -> call_in bound' c.
Proof. intros Hle [H1 H2]; split; [lia|exact H2]. Qed.

Lemma StronglySorted_snoc (A : Type) (R : A -> A -> Prop) l y :
  StronglySorted R l -> Forall (fun x => R x y) l -> StronglySorted R (l ++ [y]).
Proof.
  induction 1 as [|x l Hs IH Hx]; intros Hall; simpl.
  - repeat constructor.
  - inversion Hall; subst. constructor; [now apply IH|].
    apply Forall_app; split; [exact Hx|now repeat constructor].
Qed.

Lemma line_at_next n line :
  0 <= n -> nth_error lines (Z.to_nat n) = Some line -> line_at (n + 1) = Some line.
Proof.
  intros Hn H; unfold line_at.
  destruct (Z.leb_spec (n + 1) 0); [lia|].
  now replace (n + 1 - 1) with n by lia.
Qed.

Lemma loop_body_Inv line s :
  Inv s -> nth_error lines (Z.to_nat (row_number s)) = Some line ->
  Inv (snd (loop_body file_name row_validators_list file_number line s)).
Proof.
  intros [Hn Hrows Hsorted Hcalls] Hline.
  pose proof (line_at_next Hn Hline) as Hat.
  pose proof (loop_body_row_number file_name row_validators_list file_number line s) as Hrn.
  destruct (loop_body_calls file_name row_validators_list file_number line s)
    as (cs & Hcs & Hcalls').
  pose proof (loop_body_rows file_name row_validators_list file_number line s) as Hr.
  simpl in Hr.
  set (s' := snd (loop_body file_name row_validators_list file_number line s)) in *.
  assert (Hold : Forall (row_in (row_number s')) (all_rows s)).
  { eapply Forall_impl; [|exact Hrows]; intros r; apply row_in_mono; lia. }
  constructor.
  - lia.
  - destruct Hr as [->|(_ & Hc & row & -> & Hrow)]; [exact Hold|].
    apply Forall_app; split; [exact Hold|].
    constructor; [|constructor].
    assert (Hnum : row_pb2.row_number row = row_number s + 1)
      by (destruct Hrow as (? & ? & ? & ? & ? & ? & ? & ? & ?); assumption).
    split; [lia|]. exists line; rewrite Hnum; auto.
  - destruct Hr as [->|(_ & Hc & row & -> & Hrow)]; [exact Hsorted|].
    apply StronglySorted_snoc; [exact Hsorted|].
    assert (Hnum : row_pb2.row_number row = row_number s + 1)
      by (destruct Hrow as (? & ? & ? & ? & ? & ? & ? & ? & ?); assumption).
    eapply Forall_impl; [|exact Hrows].
    intros r [Hle _]; unfold before; lia.
  - rewrite Hcs; apply Forall_app; split.
    + eapply Forall_impl; [|exact Hcalls]; intros c; apply call_in_mono; lia.
    + eapply Forall_impl; [|exact Hcalls'].
      intros c Hc.
      assert (Hnum : call_row_number c = row_number s + 1).
      { destruct Hc as (? & ? & ? & ? & ? & ? & Hm); destruct Hm; assumption. }
      split; [lia|]. exists line; rewrite Hnum; auto.
Qed.

Lemma for_lines_cons line ls s :
  for_lines file_name row_validators_list file_number (line :: ls) s
    = match loop_body file_name row_validators_list file_number line s with
      | (inr _, s') => for_lines file_name row_validators_list file_number ls s'
      | (inl e, s') => (inl e, s')
      end.
Proof. reflexivity. Qed.

Lemma for_lines_Inv ls : forall pre s,
  lines = (pre ++ ls)%list ->
  row_number s = Z.of_nat (List.length pre) ->
  Inv s -> Inv (snd (for_lines file_name row_validators_list file_number ls s)).
Proof.
  induction ls as [|line ls IH]; intros pre s Hlines Hrn Hinv; [exact Hinv|].
  rewrite for_lines_cons.
  assert (Hline : nth_error lines (Z.to_nat (row_number s)) = Some line).
  { rewrite Hrn, Nat2Z.id, Hlines, nth_error_app2, Nat.sub_diag by lia; reflexivity. }
  pose proof (loop_body_Inv Hinv Hline) as Hinv'.
  pose proof (loop_body_row_number file_name row_validators_list file_number line s) as Hrn'.
  destruct (loop_body file_name row_validators_list file_number line s) as [[e|[]] s']; simpl in *; [exact Hinv'|].
  apply (IH (pre ++ [line])%list); trivial.
  - now rewrite <- app_assoc.
  - rewrite length_app; simpl; lia.
Qed.

Lemma start_Inv : Inv (start file_number).
Proof. constructor; simpl; try constructor; lia. Qed.

(** The state in which the loop ends or is left by an exception. *)
Definition loop_end : result unit * pstate := for_lines file_name row_validators_list file_number lines (start file_number).

Lemma loop_end_Inv : Inv (snd loop_end).
Proof. apply (for_lines_Inv lines [] (s := start file_number)); auto using start_Inv. Qed.

Lemma parse_file_loop_end :
  parse_file file_name row_validators_list file_number lines
    = match loop_end with
      | (inr _, s) =>
          (inr tt, mkState (row_number s) (current_block s)
                     (yielded s ++ [current_block s]) (log s) (calls s))
      | (inl e, s) => (inl e, s)
      end.
Proof.
  unfold parse_file, loop_end, bind, gets, yield, modify.
  now destruct (for_lines file_name row_validators_list file_number lines (start file_number)) as [[e|[]] s].
Qed.

Lemma StronglySorted_segment (A : Type) (R : A -> A -> Prop) l1 l l2 :
  StronglySorted R (l1 ++ l ++ l2) -> StronglySorted R l.
Proof.
  induction l1 as [|x l1 IH]; simpl.
  - induction l as [|y l IHl]; simpl; intros H; [constructor|].
    inversion H; subst; constructor; [now apply IHl|].
    match goal with H : Forall _ (_ ++ _) |- _ => apply Forall_app in H; tauto end.
  - intros H; inversion H; subst; now apply IH.
Qed.

Lemma block_rows_segment s b :
  In b (yielded s) \/ b = current_block s ->
  exists l1 l2, all_rows s = (l1 ++ block_pb2.rows b ++ l2)%list.
Proof.
  unfold all_rows; intros [Hin| ->].
  - apply in_split in Hin; destruct Hin as (bs1 & bs2 & ->).
    rewrite map_app, concat_app; simpl.
    exists (concat (map block_pb2.rows bs1)).
    exists (concat (map block_pb2.rows bs2) ++ block_pb2.rows (current_block s))%list.
    now rewrite <- !app_assoc.
  - exists (concat (map block_pb2.rows (yielded s))), []; now rewrite app_nil_r.
Qed.

(** Every block the generator yields was closed in the loop or was the
    open block when the loop ended. *)
Lemma in_yielded_parse_file b :
  In b (yielded (snd (parse_file file_name row_validators_list file_number lines))) ->
  In b (yielded (snd loop_end)) \/ b = current_block (snd loop_end).
Proof.
  rewrite parse_file_loop_end.
  destruct loop_end as [[e|[]] s]; simpl; [now left|].
  intros H; apply in_app_or in H; destruct H as [H|[H|[]]]; auto.
Qed.

Lemma calls_parse_file :
  calls (snd (parse_file file_name row_validators_list file_number lines))
    = calls (snd loop_end).
Proof. rewrite parse_file_loop_end; now destruct loop_end as [[e|[]] s]. Qed.

Lemma yielded_rows_in_all_rows b r :
  In b (yielded (snd (parse_file file_name row_validators_list file_number lines))) ->
  In r (block_pb2.rows b) -> In r (all_rows (snd loop_end)).
Proof.
  intros Hb Hr; apply in_yielded_parse_file in Hb.
  destruct (block_rows_segment _ Hb) as (l1 & l2 & ->).
  apply in_or_app; right; apply in_or_app; now left.
Qed.

Lemma yielded_rows_sorted b :
  In b (yielded (snd (parse_file file_name row_validators_list file_number lines))) ->
  StronglySorted before (block_pb2.rows b).
Proof.
  intros Hb; apply in_yielded_parse_file in Hb.
  destruct (block_rows_segment _ Hb) as (l1 & l2 & Heq).
  pose proof (inv_sorted loop_end_Inv) as Hs; rewrite Heq in Hs.
  now apply StronglySorted_segment in Hs.
Qed.

Lemma yielded_row_in b r :
  In b (yielded (snd (parse_file file_name row_validators_list file_number lines))) ->
  In r (block_pb2.rows b) -> row_in (Z.of_nat (List.length lines)) r.
Proof.
  intros Hb Hr. pose proof (yielded_rows_in_all_rows _ _ Hb Hr) as Hin.
  pose proof (inv_rows loop_end_Inv) as Hrows.
  rewrite Forall_forall in Hrows; specialize (Hrows _ Hin).
  destruct Hrows as [_ (line & Hat & Hrest)].
  split; [|now exists line].
  unfold line_at in Hat.
  destruct (Z.leb_spec (row_pb2.row_number r) 0); [discriminate|].
  assert (Hlt : (Z.to_nat (row_pb2.row_number r - 1) < List.length lines)%nat)
    by (apply nth_error_Some; congruence).
  lia.
Qed.

Lemma parse_file_call_in c :
  In c (calls (snd (parse_file file_name row_validators_list file_number lines))) ->
  call_in (Z.of_nat (List.length lines)) c.
Proof.
  rewrite calls_parse_file; intros Hin.
  pose proof (inv_calls loop_end_Inv) as Hcalls.
  rewrite Forall_forall in Hcalls; specialize (Hcalls _ Hin).
  destruct Hcalls as [_ (line & Hat & Hrest)].
  split; [|now exists line].
  unfold line_at in Hat.
  destruct (Z.leb_spec (call_row_number c) 0); [discriminate|].
  assert (Hlt : (Z.to_nat (call_row_number c - 1) < List.length lines)%nat)
    by (apply nth_error_Some; congruence).
  lia.
Qed.

End Loop.

(** ** Cells *)

Lemma checked_inr (A : Type) (f : pyval -> option A) (g : A -> pyval) :
  (forall v a, f v = Some a -> g a = v) ->
  forall data xs, cell_pb2.checked f data = inr xs -> map g xs = data.
Proof.
  intros Hfg; induction data as [|v data IH]; simpl; intros xs H.
  - now inversion H.
  - destruct (f v) as [a|] eqn:Hf; [|discriminate].
    destruct (cell_pb2.checked f data) as [e|xs']; [discriminate|].
    inversion H; subst; simpl. now rewrite (Hfg _ _ Hf), (IH _ eq_refl).
Qed.

(** The cell [get_cell_object] returns carries the validator's name and
    type, holds the parsed data (a list as it is, anything else as the
    only value) in the repeated field of its type and nothing in the
    other fields. *)
Lemma get_cell_object_inr cell_validator cell_parsed_data c :
  get_cell_object cell_validator cell_parsed_data = inr c ->
  cell_pb2.name c = cell_name cell_validator /\
  cell_pb2.cell_type c = get_cell_type cell_validator /\
  cell_pb2.values c = as_list cell_parsed_data /\
  cell_pb2.foreign_values c = [] /\
  Forall (fun v => cell_pb2.has_type (cell_pb2.cell_type c) v = true) (cell_pb2.values c).
Proof.
  unfold get_cell_object.
  destruct (get_cell_type cell_validator) eqn:Ht;
    match goal with
    | |- context [cell_pb2.checked ?f ?d] =>
        destruct (cell_pb2.checked f d) as [e|xs] eqn:Hchk; [discriminate|]
    end;
    intros H; inversion H; subst; clear H; unfold cell_pb2.values, cell_pb2.foreign_values; simpl;
    (split; [reflexivity|split; [reflexivity|split; [|split; [reflexivity|]]]]).
  - apply (checked_inr cell_pb2.as_string PyString); [|exact Hchk].
    now intros [] a H; inversion H.
  - apply Forall_forall; intros v Hin; apply in_map_iff in Hin as (a & <- & _); reflexivity.
  - apply (checked_inr cell_pb2.as_integer PyInt); [|exact Hchk].
    now intros [] a H; inversion H.
  - apply Forall_forall; intros v Hin; apply in_map_iff in Hin as (a & <- & _); reflexivity.
  - apply (checked_inr cell_pb2.as_decimal PyFloat); [|exact Hchk].
    now intros [] a H; inversion H.
  - apply Forall_forall; intros v Hin; apply in_map_iff in Hin as (a & <- & _); reflexivity.
  - apply (checked_inr cell_pb2.as_boolean PyBool); [|exact Hchk].
    now intros [] a H; inversion H.
  - apply Forall_forall; intros v Hin; apply in_map_iff in Hin as (a & <- & _); reflexivity.
Qed.

(** * The claims *)

(** ** Example data: the scenario of the specification *)

Module Example.

(** A validator that accepts every content as a string. *)
Definition accept (n : string) : CellValidator :=
  mkCellValidator n cell_pb2.STRING (fun content _ _ _ => inr (PyString content)).

(** SY01 and HEAD are HEAD-class, FOOT is FOOT-class, BODY01 is a body
    row type whose second column, the block number, has no validator. *)
Definition validators : row_validators :=
  [("HEAD", [Some (accept "RecordType"); Some (accept "MessageVersion")]);
   ("SY01", [Some (accept "RecordType"); Some (accept "SummaryRecordId")]);
   ("BODY01", [Some (accept "RecordType"); None; Some (accept "Title")]);
   ("FOOT", [Some (accept "RecordType"); Some (accept "Remark")])].

Definition lines : list (list string) :=
  [["HEAD"; "3.0"]; ["SY01"; "x"]; ["BODY01"; "1"; "foo"]; ["BODY01"; "1"; "bar"];
   ["BODY01"; "2"; "baz"]; ["FOOT"; "done"]].

Definition file_name : string := "DSR_example.tsv".

(** The blocks the generator yields for [lines]. *)
Definition blocks : list block_pb2.Block :=
  yielded (snd (parse_file file_name validators 1 lines)).

End Example.

(** ** C6 *)

(** What [get_row_object] returns or raises does not depend on the state
    it is run in: the state only collects the recorded calls. *)
Lemma row_cells_any_state file_name columns n bn : forall s s',
  fst (row_cells file_name columns n bn s) = fst (row_cells file_name columns n bn s').
Proof.
  induction columns as [|[[v|] content] columns IH]; intros s s'; simpl.
  - reflexivity.
  - unfold bind, record_call, modify, lift; simpl.
    destruct (validate_value v content n file_name bn) as [e|data]; simpl; [reflexivity|].
    destruct (is_absent data); [apply IH|].
    destruct (get_cell_object v data) as [e|cell]; simpl; [reflexivity|].
    match goal with
    | |- fst (match row_cells _ _ _ _ ?s1 with _ => _ end)
         = fst (match row_cells _ _ _ _ ?s2 with _ => _ end) =>
        pose proof (IH s1 s2) as H;
        destruct (row_cells file_name columns n bn s1) as [[e1|cells1] t1];
        destruct (row_cells file_name columns n bn s2) as [[e2|cells2] t2]
    end; simpl in *; inversion H; reflexivity.
  - apply IH.
Qed.

Lemma get_row_object_any_state file_name row_validator line n bn s s' :
  fst (get_row_object file_name row_validator line n bn s)
  = fst (get_row_object file_name row_validator line n bn s').
Proof.
  unfold get_row_object, bind, lift, getitem.
  destruct line as [|first rest]; simpl; [reflexivity|].
  pose proof (row_cells_any_state file_name (combine row_validator (first :: rest)) n bn s s')
    as H.
  destruct (row_cells file_name (combine row_validator (first :: rest)) n bn s)
    as [[e1|cells1] t1];
    destruct (row_cells file_name (combine row_validator (first :: rest)) n bn s')
      as [[e2|cells2] t2]; simpl in *; inversion H; reflexivity.
Qed.

Lemma for_lines_counts file_name row_validators_list file_number ls : forall s s',
  for_lines file_name row_validators_list file_number ls s = (inr tt, s') ->
  row_number s' = row_number s + Z.of_nat (List.length ls).
Proof.
  induction ls as [|line ls IH]; intros s s'.
  - simpl; intros H; inversion H; lia.
  - rewrite for_lines_cons.
    pose proof (loop_body_row_number file_name row_validators_list file_number line s) as Hrn.
    destruct (loop_body file_name row_validators_list file_number line s) as [[e|[]] s1];
      simpl in Hrn; [discriminate|].
    intros H; apply IH in H; rewrite H, Hrn.
    change (List.length (line :: ls)) with (S (List.length ls)); lia.
Qed.

(** Every row the loop stores was appended by the turn of one line, run
    in the state the lines before it left. *)
Lemma rows_appended_in_turn file_name row_validators_list file_number ls : forall s r,
  In r (all_rows (snd (for_lines file_name row_validators_list file_number ls s))) ->
  In r (all_rows s) \/
  exists pre line rest s1,
    ls = (pre ++ line :: rest)%list /\
    for_lines file_name row_validators_list file_number pre s = (inr tt, s1) /\
    fst (loop_body file_name row_validators_list file_number line s1) = inr tt /\
    is_comment line = false /\
    all_rows (snd (loop_body file_name row_validators_list file_number line s1))
    = (all_rows s1 ++ [r])%list /\
    row_of file_name row_validators_list line (row_number s1 + 1) r.
Proof.
  induction ls as [|line ls IH]; intros s r; [now left|].
  rewrite for_lines_cons.
  pose proof (loop_body_rows file_name row_validators_list file_number line s) as Hrows.
  simpl in Hrows.
  destruct (loop_body file_name row_validators_list file_number line s) as [[e|[]] s1] eqn:Hbody;
    simpl in Hrows.
  - simpl; intros Hin; left.
    destruct Hrows as [<-|[Hfst _]]; [exact Hin|discriminate].
  - intros Hin; apply IH in Hin.
    destruct Hin as [Hin|(pre & line' & rest & s2 & -> & Hpre & Hturn)].
    + destruct Hrows as [<-|(_ & Hc & row & Heq & Hrow)]; [now left|].
      rewrite Heq in Hin; apply in_app_or in Hin.
      destruct Hin as [Hin|[<-|[]]]; [now left|right].
      exists [], line, ls, s; rewrite Hbody; simpl; repeat (split; [trivial|]); exact Hrow.
    + right; exists (line :: pre), line', rest, s2.
      split; [reflexivity|split; [|exact Hturn]].
      simpl app; rewrite for_lines_cons, Hbody; exact Hpre.
Qed.

(** C6: in every block the generator yields, the row numbers of the rows
    increase strictly in stored order, and each row number is the 1-based
    number of a physical line that survived: the line is not a comment
    line, its upper-cased first field is the row's type and a key of the
    validators table, its block number (the row type for a HEAD-class or
    FOOT-class row, the integer of the second field for any other row)
    could be taken, the row is the row object [get_row_object] builds from
    that line with that number, so no validator rejected a column of it,
    and it is the turn of the loop for that line, run after the lines
    before it, that returned normally and appended the row. *)
Theorem row_numbers_are_line_numbers file_name row_validators_list file_number lines b :
  In b (yielded (snd (parse_file file_name row_validators_list file_number lines))) ->
  StronglySorted
    (fun r r' => row_pb2.row_number r < row_pb2.row_number r') (block_pb2.rows b) /\
  forall r, In r (block_pb2.rows b) ->
    1 <= row_pb2.row_number r <= Z.of_nat (List.length lines) /\
    exists line first row_validator bn s,
      nth_error lines (Z.to_nat (row_pb2.row_number r - 1)) = Some line /\
      is_comment line = false /\
      hd_error line = Some first /\
      row_pb2.type r = PyStr.upper first /\
      dict.get row_validators_list (PyStr.upper first) = Some row_validator /\
      block_arg_of line bn /\
      (forall s', fst (get_row_object file_name row_validator line
                         (row_pb2.row_number r) bn s') = inr r) /\
      Forall (cell_made_from file_name (combine row_validator line)
                (row_pb2.row_number r) bn) (row_pb2.cells r) /\
      for_lines file_name row_validators_list file_number
        (firstn (Z.to_nat (row_pb2.row_number r - 1)) lines) (start file_number)
      = (inr tt, s) /\
      fst (loop_body file_name row_validators_list file_number line s) = inr tt /\
      all_rows (snd (loop_body file_name row_validators_list file_number line s))
      = (all_rows s ++ [r])%list.
Proof.
  intros Hb; split; [exact (yielded_rows_sorted _ _ _ _ _ Hb)|].
  intros r Hr.
  pose proof (yielded_rows_in_all_rows _ _ _ _ _ _ Hb Hr) as Hin.
  unfold loop_end in Hin; apply rows_appended_in_turn in Hin.
  destruct Hin as [[]|(pre & line & rest & s & -> & Hpre & Hfst & Hc & Heq & Hrow)].
  pose proof (for_lines_counts _ _ _ _ _ Hpre) as Hn; simpl in Hn.
  destruct Hrow as (first & rv & bn & Hhd & Hget & Hbn & Hty & Hnum & Hcells & s0 & Hobj).
  rewrite <- Hnum in Hcells, Hobj.
  assert (Hidx : Z.to_nat (row_pb2.row_number r - 1) = List.length pre) by lia.
  rewrite Hidx, length_app; simpl List.length.
  split; [lia|].
  exists line, first, rv, bn, s.
  rewrite nth_error_app2, Nat.sub_diag by lia.
  rewrite firstn_app, Nat.sub_diag, firstn_all, firstn_O, app_nil_r.
  repeat (split; [assumption || reflexivity|]).
  split; [|split; [exact Hcells|auto]].
  intros s'; rewrite <- Hobj; apply get_row_object_any_state.
Qed.

(** A file with a comment line and a rejected row between the rows of
    its body block. *)
Lemma row_numbers_are_line_numbers_witness :
  let lines := [["HEAD"; "3.0"]; ["# note"]; ["BODY01"; "1"; "foo"]; ["XX99"; "1"];
                ["BODY01"; "1"; "bar"]] in
  let blocks := yielded (snd (parse_file Example.file_name Example.validators 1 lines)) in
  StronglySorted
    (fun r r' => row_pb2.row_number r < row_pb2.row_number r')
    (block_pb2.rows (nth 1 blocks (block_pb2.new 1))) /\
  map row_pb2.row_number (block_pb2.rows (nth 1 blocks (block_pb2.new 1))) = [3; 5].
Proof.
  split; [|vm_compute; reflexivity].
  apply (row_numbers_are_line_numbers Example.file_name Example.validators 1
           [["HEAD"; "3.0"]; ["# note"]; ["BODY01"; "1"; "foo"]; ["XX99"; "1"];
            ["BODY01"; "1"; "bar"]]).
  vm_compute; right; left; reflexivity.
Defined.

(** ** C7 *)

Lemma loop_body_unknown_row_type file_name row_validators_list file_number line first s :
  hd_error line = Some first ->
  dict.mem (PyStr.upper first) row_validators_list = false ->
  exists log',
    loop_body file_name row_validators_list file_number line s
      = (inr tt, mkState (row_number s + 1) (current_block s) (yielded s) log' (calls s)).
Proof.
  destruct line as [|first' rest]; [discriminate|]; simpl; intros H Hmem; inversion H; subst.
  unfold loop_body, try_except_ValidationError, try_suite, bind, lift, gets, set_row_number,
    logger, modify, ret, getitem; simpl.
  destruct (PyStr.startswith first constants.COMMENT_SIGN); [now eexists|].
  rewrite Hmem; simpl; now eexists.
Qed.

(** C7: a line whose upper-cased first field is not a key of the
    row-type-to-validators table (so in particular a line of an unknown
    row type) leaves the open block and the blocks yielded so far as they
    are, whatever the state of the parser, and the loop goes on; no row of
    any yielded block carries the number of such a line. *)
Theorem unknown_row_type_is_skipped file_name row_validators_list file_number lines
    n line first :
  nth_error lines n = Some line ->
  hd_error line = Some first ->
  dict.mem (PyStr.upper first) row_validators_list = false ->
  (forall s,
      let r := loop_body file_name row_validators_list file_number line s in
      fst r = inr tt /\
      current_block (snd r) = current_block s /\
      yielded (snd r) = yielded s) /\
  (forall b r,
      In b (yielded (snd (parse_file file_name row_validators_list file_number lines))) ->
      In r (block_pb2.rows b) ->
      row_pb2.row_number r <> Z.of_nat n + 1).
Proof.
  intros Hline Hhd Hmem; split.
  - intros s; destruct (loop_body_unknown_row_type file_name row_validators_list
                          file_number line s Hhd Hmem) as (log' & ->); simpl; auto.
  - intros b r Hb Hr Hnum.
    destruct (yielded_row_in _ _ _ _ _ _ Hb Hr) as (_ & line' & Hat & _ & Hrow).
    unfold line_at in Hat; rewrite Hnum in Hat.
    destruct (Z.leb_spec (Z.of_nat n + 1) 0); [lia|].
    replace (Z.to_nat (Z.of_nat n + 1 - 1)) with n in Hat by lia.
    rewrite Hline in Hat; inversion Hat; subst line'.
    destruct Hrow as (first' & rv & bn & Hhd' & Hget & _).
    rewrite Hhd in Hhd'; inversion Hhd'; subst first'.
    unfold dict.mem in Hmem; now rewrite Hget in Hmem.
Qed.

Lemma unknown_row_type_is_skipped_witness :
  let lines := [["HEAD"; "3.0"]; ["xx99"; "1"; "foo"]; ["SY01"; "x"]] in
  map (fun b => map row_pb2.row_number (block_pb2.rows b))
    (yielded (snd (parse_file Example.file_name Example.validators 1 lines))) = [[1; 3]] /\
  forall b r,
    In b (yielded (snd (parse_file Example.file_name Example.validators 1 lines))) ->
    In r (block_pb2.rows b) -> row_pb2.row_number r <> 2.
Proof.
  split; [reflexivity|].
  apply (unknown_row_type_is_skipped Example.file_name Example.validators 1
           [["HEAD"; "3.0"]; ["xx99"; "1"; "foo"]; ["SY01"; "x"]] 1
           (line := ["xx99"; "1"; "foo"]) (first := "xx99")); reflexivity.
Defined.

(** ** C10 *)

(** C10: every call the parser makes to a cell validator is made for a
    physical line of the file; when the row type of that line is
    HEAD-class or FOOT-class the block number argument is the row type
    string, otherwise it is the integer that the second field of the line
    parses to. *)
Theorem validators_get_row_type_or_block_number file_name row_validators_list
    file_number lines c :
  In c (calls (snd (parse_file file_name row_validators_list file_number lines))) ->
  exists line first,
    nth_error lines (Z.to_nat (call_row_number c - 1)) = Some line /\
    1 <= call_row_number c /\
    hd_error line = Some first /\
    if head_or_foot (PyStr.upper first)
    then call_block_number c = BlockStr (PyStr.upper first)
    else exists field n,
        nth_error line 1 = Some field /\ PyStr.int field = Some n /\
        call_block_number c = BlockInt n.
Proof.
  intros Hc.
  destruct (parse_file_call_in _ _ _ _ _ Hc) as (_ & line & Hat & Hcall).
  unfold line_at in Hat.
  destruct (Z.leb_spec (call_row_number c) 0); [discriminate|].
  destruct Hcall as (first & rv & bn & Hhd & _ & (first' & Hhd' & Harg) & Hmade).
  rewrite Hhd in Hhd'; inversion Hhd'; subst first'.
  destruct Hmade as (_ & _ & Hbn & _); rewrite Hbn.
  exists line, first; repeat split; trivial; lia.
Qed.

Lemma validators_get_row_type_or_block_number_witness :
  In (mkCall "Remark" "done" 6 Example.file_name (BlockStr "FOOT"))
    (calls (snd (parse_file Example.file_name Example.validators 1 Example.lines))) /\
  exists line first,
    nth_error Example.lines 5 = Some line /\
    1 <= 6 /\
    hd_error line = Some first /\
    if head_or_foot (PyStr.upper first)
    then BlockStr "FOOT" = BlockStr (PyStr.upper first)
    else exists field n,
        nth_error line 1 = Some field /\ PyStr.int field = Some n /\
        BlockStr "FOOT" = BlockInt n.
Proof.
  assert (H : In (mkCall "Remark" "done" 6 Example.file_name (BlockStr "FOOT"))
                (calls (snd (parse_file Example.file_name Example.validators 1
                               Example.lines))))
    by (vm_compute; do 11 right; left; reflexivity).
  split; [exact H|].
  exact (validators_get_row_type_or_block_number
           Example.file_name Example.validators 1 Example.lines _ H).
Defined.

(** ** C8 *)

(** Every cell of every row of every yielded block was made by
    [get_cell_object] from what a validator of the row's type returned. *)
Lemma yielded_cell_made_from file_name row_validators_list file_number lines b r c :
  In b (yielded (snd (parse_file file_name row_validators_list file_number lines))) ->
  In r (block_pb2.rows b) ->
  In c (row_pb2.cells r) ->
  exists line row_validator bn,
    nth_error lines (Z.to_nat (row_pb2.row_number r - 1)) = Some line /\
    dict.get row_validators_list (row_pb2.type r) = Some row_validator /\
    cell_made_from file_name (combine row_validator line) (row_pb2.row_number r) bn c.
Proof.
  intros Hb Hr Hc.
  destruct (yielded_row_in _ _ _ _ _ _ Hb Hr) as (_ & line & Hat & _ & Hrow).
  unfold line_at in Hat.
  destruct (Z.leb_spec (row_pb2.row_number r) 0); [discriminate|].
  destruct Hrow as (first & rv & bn & _ & Hget & _ & Hty & _ & Hcells & _).
  rewrite Forall_forall in Hcells.
  exists line, rv, bn; rewrite Hty; auto.
Qed.

(** A validator for a repeated column that returns the empty list. *)
Definition empty_list_validator : CellValidator :=
  mkCellValidator "Territories" cell_pb2.STRING (fun _ _ _ _ => inr (PyList [])).

(** C8, as stated, fails: a validator may return an empty list, which is
    neither [None] nor the empty string; [get_cell_object] uses a list as
    it is, and the cell that is emitted has no values. *)
Lemma cell_without_values :
  exists b r c,
    In b (yielded (snd (parse_file Example.file_name
                          [("HEAD", [None; Some empty_list_validator])] 1
                          [["HEAD"; "3.0"]]))) /\
    In r (block_pb2.rows b) /\
    In c (row_pb2.cells r) /\
    cell_pb2.values c = [].
Proof.
  exists (block_pb2.mkBlock block_pb2.HEAD 0 "3.0" 1
            [row_pb2.mkRow "HEAD" 1 [cell_pb2.mkCell "Territories" cell_pb2.STRING [] [] [] []]]).
  exists (row_pb2.mkRow "HEAD" 1 [cell_pb2.mkCell "Territories" cell_pb2.STRING [] [] [] []]).
  exists (cell_pb2.mkCell "Territories" cell_pb2.STRING [] [] [] []).
  vm_compute; auto.
Qed.

(** C8, amended: every emitted cell was made for a column of its line
    whose validator returned data that is neither [None] nor the empty
    string; it carries the validator's name and type; its values are that
    data (a list as it is, anything else as the only value), so they are
    not empty unless the validator returned the empty list; all its values
    have the cell's type and the fields of the other types are empty. *)
Theorem emitted_cells file_name row_validators_list file_number lines b r c :
  In b (yielded (snd (parse_file file_name row_validators_list file_number lines))) ->
  In r (block_pb2.rows b) ->
  In c (row_pb2.cells r) ->
  exists line row_validator cell_validator cell_content bn cell_parsed_data,
    nth_error lines (Z.to_nat (row_pb2.row_number r - 1)) = Some line /\
    dict.get row_validators_list (row_pb2.type r) = Some row_validator /\
    In (Some cell_validator, cell_content) (combine row_validator line) /\
    validate_value cell_validator cell_content (row_pb2.row_number r) file_name bn
      = inr cell_parsed_data /\
    cell_parsed_data <> PyNone /\
    cell_parsed_data <> PyString EmptyString /\
    cell_pb2.name c = cell_name cell_validator /\
    cell_pb2.cell_type c = get_cell_type cell_validator /\
    cell_pb2.values c = as_list cell_parsed_data /\
    (cell_parsed_data <> PyList [] -> cell_pb2.values c <> []) /\
    Forall (fun v => cell_pb2.has_type (cell_pb2.cell_type c) v = true) (cell_pb2.values c) /\
    cell_pb2.foreign_values c = [].
Proof.
  intros Hb Hr Hc.
  destruct (yielded_cell_made_from _ _ _ _ _ _ _ Hb Hr Hc)
    as (line & rv & bn & Hline & Hget & v & content & data & Hin & Hval & Habs & Hcell).
  destruct (get_cell_object_inr _ _ Hcell) as (Hname & Htype & Hvalues & Hforeign & Htyped).
  exists line, rv, v, content, bn, data.
  repeat (split; [assumption|]).
  split; [intros ->; discriminate|].
  split; [intros ->; discriminate|].
  repeat (split; [assumption|]).
  split; [|split; assumption].
  rewrite Hvalues; destruct data; simpl; congruence.
Qed.

Lemma emitted_cells_witness :
  let c := cell_pb2.mkCell "Title" cell_pb2.STRING ["foo"] [] [] [] in
  let r := row_pb2.mkRow "BODY01" 3
             [cell_pb2.mkCell "RecordType" cell_pb2.STRING ["BODY01"] [] [] []; c] in
  In r (block_pb2.rows (nth 1 Example.blocks (block_pb2.new 1))) /\
  In c (row_pb2.cells r) /\
  exists cell_validator cell_parsed_data,
    cell_pb2.name c = cell_name cell_validator /\
    cell_pb2.values c = as_list cell_parsed_data /\
    (cell_parsed_data <> PyList [] -> cell_pb2.values c <> []).
Proof.
  set (c := cell_pb2.mkCell "Title" cell_pb2.STRING ["foo"] [] [] []).
  set (r := row_pb2.mkRow "BODY01" 3
              [cell_pb2.mkCell "RecordType" cell_pb2.STRING ["BODY01"] [] [] []; c]).
  assert (Hb : In (nth 1 Example.blocks (block_pb2.new 1))
                 (yielded (snd (parse_file Example.file_name Example.validators 1
                                  Example.lines))))
    by (vm_compute; right; left; reflexivity).
  assert (Hr : In r (block_pb2.rows (nth 1 Example.blocks (block_pb2.new 1))))
    by (vm_compute; left; reflexivity).
  assert (Hc : In c (row_pb2.cells r)) by (right; left; reflexivity).
  split; [exact Hr|split; [exact Hc|]].
  destruct (emitted_cells Example.file_name Example.validators 1 Example.lines _ _ _ Hb Hr Hc)
    as (_ & _ & v & _ & _ & data & _ & _ & _ & _ & _ & _ & Hn & _ & Hv & Hne & _).
  exists v, data; split; [exact Hn|split; [exact Hv|exact Hne]].
Defined.

(** ** C1 *)

Section Scenario.

Variable file_name : string.

(** A validator that accepts whatever it is given: it returns, and what
    it returns is absent or fits its cell type. *)
Definition accepting (v : CellValidator) : Prop :=
  forall content n bn,
    exists data,
      validate_value v content n file_name bn = inr data /\
      (is_absent data = true \/ exists c, get_cell_object v data = inr c).

Definition all_accepting (row_validator : list (option CellValidator)) : Prop :=
  forall v, In (Some v) row_validator -> accepting v.

Lemma row_cells_accepting columns n bn :
  (forall v content, In (Some v, content) columns -> accepting v) ->
  forall s, exists cs cells,
    row_cells file_name columns n bn s = (inr cells, add_calls s cs).
Proof.
  induction columns as [|[[v|] content] columns IH]; intros Hacc s; simpl.
  - exists [], []; now rewrite add_calls_nil.
  - unfold bind, record_call, modify, lift; simpl.
    set (s1 := mkState _ _ _ _ _).
    assert (Hs1 : s1 = add_calls s [mkCall (cell_name v) content n file_name bn])
      by reflexivity.
    destruct (Hacc v content (or_introl eq_refl) content n bn) as (data & -> & Hdata).
    assert (IH' : exists cs cells,
               row_cells file_name columns n bn s1 = (inr cells, add_calls s1 cs))
      by (apply IH; intros v' c' Hin; apply (Hacc v' c'); now right).
    destruct IH' as (cs & cells & Hrest).
    destruct (is_absent data) eqn:Habs.
    + rewrite Hrest, Hs1, add_calls_app; eauto.
    + destruct Hdata as [Hdata|(c & ->)]; [discriminate|].
      rewrite Hrest, Hs1, add_calls_app; unfold ret; eauto.
  - apply IH; intros v' c' Hin; apply (Hacc v' c'); now right.
Qed.

Lemma get_row_object_accepting row_validator first rest n bn s :
  all_accepting row_validator ->
  exists cs cells,
    get_row_object file_name row_validator (first :: rest) n bn s
      = (inr (row_pb2.mkRow (PyStr.upper first) n cells), add_calls s cs).
Proof.
  intros Hacc; unfold get_row_object, bind, lift, getitem; simpl nth_error; cbv iota.
  destruct (row_cells_accepting (combine row_validator (first :: rest)) n bn) with (s := s)
    as (cs & cells & ->).
  - intros v content Hin; apply Hacc; now apply in_combine_l in Hin.
  - unfold ret; eauto.
Qed.

End Scenario.

(** ** Lines that are accepted *)

Section Accepted.

Variable file_name : string.
Variable row_validators_list : row_validators.
Variable file_number : Z.

Local Arguments PyStr.mem : simpl never.
Local Arguments PyStr.upper : simpl never.
Local Arguments PyStr.startswith : simpl never.
Local Arguments String.eqb : simpl never.
Local Arguments is_end_of_block : simpl never.
Local Arguments get_row_object : simpl never.
Local Arguments get_block_number : simpl never.

Lemma get_mem (d : row_validators) k v : dict.get d k = Some v -> dict.mem k d = true.
Proof. unfold dict.mem; now intros ->. Qed.

Ltac unfold_loop_body :=
  unfold loop_body, try_except_ValidationError, try_suite, bind, lift, gets,
    set_row_number, logger, modify, ret, when, yield, set_current_block,
    update_current_block, getitem, _get_row_type, dict.lookup; simpl.

(** A HEAD-class or FOOT-class line with at least two fields whose
    validators accept: the open block is yielded when [is_end_of_block]
    says so, the block type is set from the row type, the version is taken
    from a HEAD row, and one row is appended. *)
Lemma loop_body_head_or_foot_row first second rest row_validator end_of_block s :
  PyStr.startswith first constants.COMMENT_SIGN = false ->
  dict.get row_validators_list (PyStr.upper first) = Some row_validator ->
  all_accepting file_name row_validator ->
  head_or_foot (PyStr.upper first) = true ->
  is_end_of_block file_name (first :: second :: rest) (row_number s + 1) (current_block s)
    = inr end_of_block ->
  exists cells log' cs,
    loop_body file_name row_validators_list file_number (first :: second :: rest) s
    = (inr tt,
       mkState (row_number s + 1)
         (block_pb2.extend_rows
            [row_pb2.mkRow (PyStr.upper first) (row_number s + 1) cells]
            ((if String.eqb (PyStr.upper first) "HEAD"
              then block_pb2.set_version second else fun b => b)
               (block_pb2.set_type
                  (if PyStr.mem (PyStr.upper first) constants.FOOT_ROWS
                   then block_pb2.FOOT else block_pb2.HEAD)
                  (if end_of_block then block_pb2.new file_number else current_block s))))
         (if end_of_block then yielded s ++ [current_block s] else yielded s)
         log' (calls s ++ cs)).
Proof.
  intros Hc Hget Hacc Hclass Heob.
  unfold_loop_body.
  rewrite Hc, (get_mem _ _ Hget); simpl.
  rewrite Heob; unfold head_or_foot in Hclass; rewrite Hclass, Hget.
  destruct end_of_block, (PyStr.mem (PyStr.upper first) constants.FOOT_ROWS),
    (String.eqb (PyStr.upper first) "HEAD"); simpl.
  all: match goal with
       | |- context [get_row_object file_name ?rv (?f :: ?r) ?n ?bn ?s0] =>
           destruct (get_row_object_accepting (file_name := file_name) f r n bn s0 Hacc)
             as (cs & cells & ->)
       end; simpl.
  all: eexists cells, _, cs; reflexivity.
Qed.

(** A body line whose second field is an integer and whose validators
    accept: the open block is yielded when [is_end_of_block] says so, a
    block of the default type becomes a BODY block with the line's block
    number, and one row is appended. *)
Lemma loop_body_body_row first second rest row_validator block_number end_of_block s :
  PyStr.startswith first constants.COMMENT_SIGN = false ->
  dict.get row_validators_list (PyStr.upper first) = Some row_validator ->
  all_accepting file_name row_validator ->
  head_or_foot (PyStr.upper first) = false ->
  PyStr.int second = Some block_number ->
  is_end_of_block file_name (first :: second :: rest) (row_number s + 1) (current_block s)
    = inr end_of_block ->
  exists cells log' cs,
    loop_body file_name row_validators_list file_number (first :: second :: rest) s
    = (inr tt,
       mkState (row_number s + 1)
         (block_pb2.extend_rows
            [row_pb2.mkRow (PyStr.upper first) (row_number s + 1) cells]
            (let open := if end_of_block then block_pb2.new file_number
                         else current_block s in
             if block_pb2.truthy (block_pb2.type open) then open
             else block_pb2.set_number block_number
                    (block_pb2.set_type block_pb2.BODY open)))
         (if end_of_block then yielded s ++ [current_block s] else yielded s)
         log' (calls s ++ cs)).
Proof.
  intros Hc Hget Hacc Hclass Hint Heob.
  unfold_loop_body.
  rewrite Hc, (get_mem _ _ Hget); simpl.
  rewrite Heob; unfold head_or_foot in Hclass; rewrite Hclass, Hget.
  assert (Hbn : forall n, get_block_number file_name (first :: second :: rest) n
                          = inr block_number)
    by (intros n; unfold get_block_number, getitem; simpl; now rewrite Hint).
  destruct end_of_block; simpl; rewrite Hbn.
  all: match goal with
       | |- context [get_row_object file_name ?rv (?f :: ?r) ?n ?bn ?s0] =>
           destruct (get_row_object_accepting (file_name := file_name) f r n bn s0 Hacc)
             as (cs & cells & ->)
       end; simpl.
  - eexists cells, _, cs; reflexivity.
  - destruct (block_pb2.truthy (block_pb2.type (current_block s))); simpl;
      eexists cells, _, cs; reflexivity.
Qed.

End Accepted.

Ltac norm_state :=
  match goal with
  | |- context [for_lines _ _ _ _ ?s] =>
      let s' := eval vm_compute in s in
      replace s with s' by (vm_compute; reflexivity)
  end.

(** C1: for every table in which HEAD, SY01, BODY01 and FOOT have
    validators that all accept, the six lines of the scenario give four
    blocks in this order: a HEAD block with version 3.0 and the rows of
    lines 1 and 2, a BODY block with number 1 and the rows of lines 3 and
    4, a BODY block with number 2 and the row of line 5, and a FOOT block
    with the row of line 6; the generator ends without an exception. *)
Theorem scenario_four_blocks file_name row_validators_list file_number
    head_validators sy01_validators body01_validators foot_validators :
  dict.get row_validators_list "HEAD" = Some head_validators ->
  dict.get row_validators_list "SY01" = Some sy01_validators ->
  dict.get row_validators_list "BODY01" = Some body01_validators ->
  dict.get row_validators_list "FOOT" = Some foot_validators ->
  all_accepting file_name head_validators ->
  all_accepting file_name sy01_validators ->
  all_accepting file_name body01_validators ->
  all_accepting file_name foot_validators ->
  exists c1 c2 c3 c4 c5 c6,
    fst (parse_file file_name row_validators_list file_number Example.lines) = inr tt /\
    yielded (snd (parse_file file_name row_validators_list file_number Example.lines))
    = [block_pb2.mkBlock block_pb2.HEAD 0 "3.0" file_number
         [row_pb2.mkRow "HEAD" 1 c1; row_pb2.mkRow "SY01" 2 c2];
       block_pb2.mkBlock block_pb2.BODY 1 EmptyString file_number
         [row_pb2.mkRow "BODY01" 3 c3; row_pb2.mkRow "BODY01" 4 c4];
       block_pb2.mkBlock block_pb2.BODY 2 EmptyString file_number
         [row_pb2.mkRow "BODY01" 5 c5];
       block_pb2.mkBlock block_pb2.FOOT 0 EmptyString file_number
         [row_pb2.mkRow "FOOT" 6 c6]].
Proof.
  intros HH HS HB HF AH AS AB AF.
  enough (H : exists c1 c2 c3 c4 c5 c6 st,
             parse_file file_name row_validators_list file_number Example.lines
               = (inr tt, st) /\
             yielded st
             = [block_pb2.mkBlock block_pb2.HEAD 0 "3.0" file_number
                  [row_pb2.mkRow "HEAD" 1 c1; row_pb2.mkRow "SY01" 2 c2];
                block_pb2.mkBlock block_pb2.BODY 1 EmptyString file_number
                  [row_pb2.mkRow "BODY01" 3 c3; row_pb2.mkRow "BODY01" 4 c4];
                block_pb2.mkBlock block_pb2.BODY 2 EmptyString file_number
                  [row_pb2.mkRow "BODY01" 5 c5];
                block_pb2.mkBlock block_pb2.FOOT 0 EmptyString file_number
                  [row_pb2.mkRow "FOOT" 6 c6]]).
  { destruct H as (c1 & c2 & c3 & c4 & c5 & c6 & st & Hp & Hy).
    exists c1, c2, c3, c4, c5, c6; rewrite Hp; split; [reflexivity|exact Hy]. }
  unfold parse_file, Example.lines.
  unfold bind at 1.
  rewrite for_lines_cons.
  destruct (@loop_body_head_or_foot_row file_name row_validators_list file_number
              "HEAD" "3.0" [] head_validators false (start file_number))
    as (c1 & l1 & k1 & ->); try reflexivity; try assumption.
  norm_state.
  rewrite for_lines_cons.
  match goal with |- context [loop_body _ _ _ _ ?s] =>
    destruct (@loop_body_head_or_foot_row file_name row_validators_list file_number
                "SY01" "x" [] sy01_validators false s)
      as (c2 & l2 & k2 & ->); try reflexivity; try assumption
  end.
  norm_state.
  rewrite for_lines_cons.
  match goal with |- context [loop_body _ _ _ _ ?s] =>
    destruct (@loop_body_body_row file_name row_validators_list file_number
                "BODY01" "1" ["foo"] body01_validators 1 true s)
      as (c3 & l3 & k3 & ->); try reflexivity; try assumption
  end.
  norm_state.
  rewrite for_lines_cons.
  match goal with |- context [loop_body _ _ _ _ ?s] =>
    destruct (@loop_body_body_row file_name row_validators_list file_number
                "BODY01" "1" ["bar"] body01_validators 1 false s)
      as (c4 & l4 & k4 & ->); try reflexivity; try assumption
  end.
  norm_state.
  rewrite for_lines_cons.
  match goal with |- context [loop_body _ _ _ _ ?s] =>
    destruct (@loop_body_body_row file_name row_validators_list file_number
                "BODY01" "2" ["baz"] body01_validators 2 true s)
      as (c5 & l5 & k5 & ->); try reflexivity; try assumption
  end.
  norm_state.
  rewrite for_lines_cons.
  match goal with |- context [loop_body _ _ _ _ ?s] =>
    destruct (@loop_body_head_or_foot_row file_name row_validators_list file_number
                "FOOT" "done" [] foot_validators true s)
      as (c6 & l6 & k6 & ->); try reflexivity; try assumption
  end.
  exists c1, c2, c3, c4, c5, c6; eexists; split; [reflexivity|].
  vm_compute; reflexivity.
Qed.

Lemma accept_accepting file_name n : accepting file_name (Example.accept n).
Proof.
  intros content k bn; exists (PyString content); split; [reflexivity|].
  right; eexists; reflexivity.
Qed.

Lemma scenario_four_blocks_witness :
  map (fun b => (block_pb2.type b, block_pb2.number b, block_pb2.version b,
                 List.length (block_pb2.rows b))) Example.blocks
  = [(block_pb2.HEAD, 0, "3.0", 2%nat); (block_pb2.BODY, 1, EmptyString, 2%nat);
     (block_pb2.BODY, 2, EmptyString, 1%nat); (block_pb2.FOOT, 0, EmptyString, 1%nat)].
Proof.
  assert (A : forall rv,
             (forall v, In (Some v) rv -> exists n, v = Example.accept n) ->
             all_accepting Example.file_name rv).
  { intros rv H v Hin; destruct (H v Hin) as (n & ->); apply accept_accepting. }
  destruct (@scenario_four_blocks Example.file_name Example.validators 1
              [Some (Example.accept "RecordType"); Some (Example.accept "MessageVersion")]
              [Some (Example.accept "RecordType"); Some (Example.accept "SummaryRecordId")]
              [Some (Example.accept "RecordType"); None; Some (Example.accept "Title")]
              [Some (Example.accept "RecordType"); Some (Example.accept "Remark")]
              eq_refl eq_refl eq_refl eq_refl)
    as (c1 & c2 & c3 & c4 & c5 & c6 & _ & H).
  - apply A; intros v [Hin|[Hin|[]]]; inversion Hin; eauto.
  - apply A; intros v [Hin|[Hin|[]]]; inversion Hin; eauto.
  - apply A; intros v [Hin|[Hin|[Hin|[]]]]; inversion Hin; eauto.
  - apply A; intros v [Hin|[Hin|[]]]; inversion Hin; eauto.
  - unfold Example.blocks; rewrite H; reflexivity.
Defined.

(** ** C2 *)

(** Where the first field is already in upper case, [is_end_of_block]
    follows the three rules over the row type. *)
Lemma is_end_of_block_upper_case file_name first rest n b :
  PyStr.upper first = first ->
  is_end_of_block file_name (first :: rest) n b
  = match block_pb2.type b with
    | block_pb2.HEAD => inr (negb (PyStr.mem (PyStr.upper first) constants.HEAD_ROWS))
    | block_pb2.FOOT => inr (negb (PyStr.mem (PyStr.upper first) constants.FOOT_ROWS))
    | block_pb2.BODY =>
        if PyStr.mem (PyStr.upper first) constants.FOOT_ROWS then inr true
        else match get_block_number file_name (first :: rest) n with
             | inr k => inr (negb (block_pb2.number b =? k))
             | inl e => inl e
             end
    end.
Proof. intros ->; reflexivity. Qed.

(** C2, as the code is: [is_end_of_block] looks the first field up as it
    is written, not upper-cased.  The row type of a line that starts with
    sy01 is SY01, a HEAD-class row type, yet an open HEAD block is closed
    by it: the file HEAD, sy01 gives two HEAD blocks of one row each. *)
Theorem lower_case_row_closes_head_block file_name n number version file_number rows rest :
  PyStr.mem (PyStr.upper "sy01") constants.HEAD_ROWS = true /\
  is_end_of_block file_name ("sy01" :: rest) n
    (block_pb2.mkBlock block_pb2.HEAD number version file_number rows) = inr true /\
  map (fun b => (block_pb2.type b, map row_pb2.type (block_pb2.rows b)))
    (yielded (snd (parse_file Example.file_name Example.validators 1
                     [["HEAD"; "3.0"]; ["sy01"; "x"]])))
  = [(block_pb2.HEAD, ["HEAD"]); (block_pb2.HEAD, ["SY01"])].
Proof. repeat split. Qed.

(** ** C3 *)

(** C3, as the code is: the test for a comment line reads [line[0]]
    before the [try] statement, so an empty line raises [IndexError], which
    is no validation error: nothing is logged, the loop is left, and the
    generator ends without the final block; the empty-record failure of
    [_get_row_type] is never reached. *)
Theorem empty_line_raises_IndexError file_name row_validators_list file_number rest s :
  for_lines file_name row_validators_list file_number ([] :: rest) s
  = (inl IndexError,
     mkState (row_number s + 1) (current_block s) (yielded s) (log s) (calls s)) /\
  is_ValidationError IndexError = false /\
  parse_file file_name row_validators_list file_number ([] :: rest)
  = (inl IndexError,
     mkState 1 (block_pb2.new file_number) [] [InfoStartHead file_number] []).
Proof. repeat split. Qed.

(** ** C4 *)

(** A second field that is not an integer gives the row validation
    failure, with the upper-cased field and the row number in its message
    and the file name beside it. *)
Lemma get_block_number_not_integer file_name first field rest n :
  PyStr.int field = None ->
  get_block_number file_name (first :: field :: rest) n
  = inl (RowValidationFailure n file_name (block_id_message (PyStr.upper field) n)).
Proof. unfold get_block_number, getitem; simpl; now intros ->. Qed.

(** C4, as the code is: when the second field is missing, the handler in
    [get_block_number] evaluates [line[1]] again for its message and
    raises [IndexError]; the body row BODY01 alone makes the generator
    end with that exception after it yielded the empty first block. *)
Theorem missing_block_id_raises_IndexError file_name first n :
  get_block_number file_name [first] n = inl IndexError /\
  is_ValidationError IndexError = false /\
  parse_file Example.file_name Example.validators 1 [["BODY01"]]
  = (inl IndexError,
     mkState 1 (block_pb2.new 1) [block_pb2.new 1] [InfoStartHead 1] []).
Proof. repeat split. Qed.

(** ** C5 *)

(** The loop over two runs of lines is the loop over the first run and
    then, unless that was left by an exception, over the second. *)
Lemma for_lines_app file_name row_validators_list file_number ls ls' s :
  for_lines file_name row_validators_list file_number (ls ++ ls') s
  = match for_lines file_name row_validators_list file_number ls s with
    | (inr _, s') => for_lines file_name row_validators_list file_number ls' s'
    | (inl e, s') => (inl e, s')
    end.
Proof.
  revert s; induction ls as [|line ls IH]; intros s; [reflexivity|].
  simpl app; rewrite !for_lines_cons.
  destruct (loop_body file_name row_validators_list file_number line s) as [[e|[]] s'];
    [reflexivity|apply IH].
Qed.

(** C5, as the code is: an empty line leaves the loop with [IndexError],
    so the statement after the loop, which yields the open block, is never
    reached.  Wherever the empty line stands, the generator yields the
    blocks closed before it and ends with the exception; the block open
    at that line, which a file ending there would yield as its last
    block, is never yielded.  With the empty line first the generator
    yields no block at all. *)
Theorem empty_line_loses_open_block file_name row_validators_list file_number pre rest :
  let loop := for_lines file_name row_validators_list file_number pre (start file_number) in
  let out := parse_file file_name row_validators_list file_number (pre ++ [] :: rest) in
  fst loop = inr tt ->
  fst out = inl IndexError /\
  yielded (snd out) = yielded (snd loop) /\
  current_block (snd out) = current_block (snd loop) /\
  yielded (snd (parse_file file_name row_validators_list file_number pre))
  = (yielded (snd loop) ++ [current_block (snd loop)])%list /\
  (pre = [] -> yielded (snd out) = []).
Proof.
  simpl; intros Hloop.
  rewrite !parse_file_loop_end; unfold loop_end; rewrite for_lines_app.
  destruct (for_lines file_name row_validators_list file_number pre (start file_number))
    as [[e|[]] s] eqn:Hpre; simpl in Hloop; [discriminate|].
  simpl; repeat split.
  intros ->; inversion Hpre; reflexivity.
Qed.

Lemma empty_line_loses_open_block_witness :
  yielded (snd (parse_file Example.file_name Example.validators 1 [[]])) = [] /\
  map block_pb2.type
    (yielded (snd (parse_file Example.file_name Example.validators 1
                     (Example.lines ++ [[]]))))
  = [block_pb2.HEAD; block_pb2.BODY; block_pb2.BODY] /\
  map block_pb2.type Example.blocks
  = [block_pb2.HEAD; block_pb2.BODY; block_pb2.BODY; block_pb2.FOOT].
Proof.
  assert (Hloop : fst (for_lines Example.file_name Example.validators 1 Example.lines
                         (start 1)) = inr tt) by (vm_compute; reflexivity).
  destruct (@empty_line_loses_open_block Example.file_name Example.validators 1 [] []
              eq_refl) as (_ & _ & _ & _ & Hnone).
  destruct (@empty_line_loses_open_block Example.file_name Example.validators 1
              Example.lines [] Hloop) as (_ & Hsame & _ & Hall & _).
  split; [exact (Hnone eq_refl)|split].
  - rewrite Hsame; vm_compute; reflexivity.
  - unfold Example.blocks; rewrite Hall; vm_compute; reflexivity.
Defined.

(** ** C9 *)

Section FirstRow.

Variable file_name : string.
Variable row_validators_list : row_validators.
Variable file_number : Z.

(** The blocks yielded so far stay yielded. *)
Lemma for_lines_yielded ls : forall s,
  exists more,
    yielded (snd (for_lines file_name row_validators_list file_number ls s))
    = (yielded s ++ more)%list.
Proof.
  induction ls as [|line ls IH]; intros s.
  - exists []; simpl; now rewrite app_nil_r.
  - rewrite for_lines_cons.
    pose proof (loop_body_blocks file_name row_validators_list file_number line s) as H.
    simpl in H.
    destruct (loop_body file_name row_validators_list file_number line s) as [[e|[]] s'];
      simpl in *.
    + destruct H as [[-> _]| ->]; [exists []; now rewrite app_nil_r|eauto].
    + destruct (IH s') as (more & ->).
      destruct H as [[-> _]| ->]; [eauto|].
      rewrite <- app_assoc; eauto.
Qed.

(** The rows stored so far stay stored. *)
Lemma for_lines_all_rows ls : forall s,
  exists more,
    all_rows (snd (for_lines file_name row_validators_list file_number ls s))
    = (all_rows s ++ more)%list.
Proof.
  induction ls as [|line ls IH]; intros s.
  - exists []; simpl; now rewrite app_nil_r.
  - rewrite for_lines_cons.
    pose proof (loop_body_rows file_name row_validators_list file_number line s) as H.
    simpl in H.
    destruct (loop_body file_name row_validators_list file_number line s) as [[e|[]] s'];
      simpl in *.
    + destruct H as [->|(H & _)]; [exists []; now rewrite app_nil_r|discriminate].
    + destruct (IH s') as (more & ->).
      destruct H as [->|(_ & _ & row & -> & _)]; [eauto|].
      rewrite <- app_assoc; eauto.
Qed.

(** As long as no row is stored: the first block yielded, or else the
    open block, has the default type. *)
Definition leading (s : pstate) : Prop :=
  all_rows s = [] /\
  match yielded s with
  | [] => block_pb2.type (current_block s) = block_pb2.HEAD
  | b :: _ => block_pb2.type b = block_pb2.HEAD
  end.

Lemma loop_body_leading line s :
  leading s ->
  all_rows (snd (loop_body file_name row_validators_list file_number line s)) = [] ->
  leading (snd (loop_body file_name row_validators_list file_number line s)).
Proof.
  intros [Hrows Hfirst] Hrows'; split; [exact Hrows'|].
  pose proof (loop_body_blocks file_name row_validators_list file_number line s) as H.
  pose proof (loop_body_keeps_head file_name row_validators_list file_number line s) as Hk.
  simpl in H, Hk.
  destruct H as [[Hy _]|Hy]; rewrite Hy.
  - destruct (yielded s); [now apply Hk|exact Hfirst].
  - destruct (yielded s); simpl; assumption.
Qed.

Lemma for_lines_leading ls : forall s,
  leading s ->
  all_rows (snd (for_lines file_name row_validators_list file_number ls s)) = [] ->
  leading (snd (for_lines file_name row_validators_list file_number ls s)).
Proof.
  induction ls as [|line ls IH]; intros s Hs Hrows; [exact Hs|].
  rewrite for_lines_cons in *.
  pose proof (@loop_body_leading line s Hs) as Hstep.
  destruct (loop_body file_name row_validators_list file_number line s) as [[e|[]] s'];
    simpl in *; [now apply Hstep|].
  destruct (for_lines_all_rows ls s') as (more & Hmore).
  rewrite Hmore in Hrows; apply app_eq_nil in Hrows; destruct Hrows as [Hs' ->].
  apply IH; [now apply Hstep|now rewrite Hmore, Hs'].
Qed.

Local Arguments _get_row_type : simpl never.
Local Arguments is_end_of_block : simpl never.

Lemma not_head_class_as_written first :
  PyStr.mem (PyStr.upper first) constants.HEAD_ROWS = false ->
  PyStr.mem first constants.HEAD_ROWS = false.
Proof.
  intros H; destruct (PyStr.mem first constants.HEAD_ROWS) eqn:Hm; [|reflexivity].
  now rewrite (head_rows_upper _ Hm), Hm in H.
Qed.

(** A line that is not HEAD-class as written and gives a row closes an
    open block of type HEAD. *)
Lemma loop_body_closes_head line first s :
  block_pb2.type (current_block s) = block_pb2.HEAD ->
  hd_error line = Some first ->
  PyStr.mem first constants.HEAD_ROWS = false ->
  all_rows (snd (loop_body file_name row_validators_list file_number line s))
    <> all_rows s ->
  yielded (snd (loop_body file_name row_validators_list file_number line s))
  = (yielded s ++ [current_block s])%list.
Proof.
  intros Ht Hhd Hm.
  destruct line as [|first' rest]; [discriminate|]; inversion Hhd; subst first'.
  unfold loop_body, try_except_ValidationError, bind, lift, gets, set_row_number,
    logger, modify, ret, getitem; simpl.
  destruct (PyStr.startswith first constants.COMMENT_SIGN); simpl;
    [intros H; exfalso; apply H; reflexivity|].
  assert (Heob : is_end_of_block file_name (first :: rest) (row_number s + 1)
                   (current_block s) = inr true)
    by (rewrite (is_end_of_block_head file_name (first :: rest) _ _ Ht); now rewrite Hm).
  destruct (_get_row_type file_name (first :: rest) row_validators_list (row_number s + 1))
    as [e|row_type] eqn:Hrt.
  - unfold try_suite, bind, lift, gets; simpl. rewrite Hrt; simpl.
    intros H; exfalso; apply H; destruct (is_ValidationError e); reflexivity.
  - match goal with |- context [try_suite ?f ?t ?n ?l ?s0] =>
      pose proof (@try_suite_closes f t n l s0 row_type Hrt Heob) as Hc;
      revert Hc; destruct (try_suite f t n l s0) as [[e|[]] s']
    end; simpl; intros Hc _; trivial.
    destruct (is_ValidationError e); simpl; trivial.
Qed.

Lemma all_rows_nil s :
  all_rows s = [] ->
  Forall (fun b => block_pb2.rows b = []) (yielded s) /\
  block_pb2.rows (current_block s) = [].
Proof.
  unfold all_rows; intros H; apply app_eq_nil in H; destruct H as [H1 H2].
  split; [|exact H2].
  apply concat_nil_Forall in H1.
  rewrite Forall_map in H1; exact H1.
Qed.

Lemma first_row_step line first row s :
  leading s ->
  hd_error line = Some first ->
  PyStr.mem (PyStr.upper first) constants.HEAD_ROWS = false ->
  all_rows (snd (loop_body file_name row_validators_list file_number line s)) = [row] ->
  exists b0 bs,
    yielded (snd (loop_body file_name row_validators_list file_number line s)) = b0 :: bs /\
    block_pb2.rows b0 = [] /\
    block_pb2.type b0 = block_pb2.HEAD /\
    block_pb2.rows (current_block
                      (snd (loop_body file_name row_validators_list file_number line s)))
    = [row].
Proof.
  intros [Hrows Hfirst] Hhd Hm Hrow.
  apply not_head_class_as_written in Hm.
  destruct (all_rows_nil _ Hrows) as [Hyielded Hopen].
  pose proof (loop_body_blocks file_name row_validators_list file_number line s) as H.
  simpl in H.
  assert (Hy : yielded (snd (loop_body file_name row_validators_list file_number line s))
               = yielded s /\ yielded s <> [] \/
               yielded (snd (loop_body file_name row_validators_list file_number line s))
               = (yielded s ++ [current_block s])%list).
  { destruct H as [[Hy _]|Hy]; [|now right].
    destruct (yielded s) as [|b bs] eqn:Hys; [|left; split; [exact Hy|discriminate]].
    right; rewrite (@loop_body_closes_head line first s Hfirst Hhd Hm), Hys;
      [reflexivity|].
    rewrite Hrow, Hrows; discriminate. }
  assert (Hall : Forall (fun b => block_pb2.rows b = [])
                   (yielded (snd (loop_body file_name row_validators_list file_number
                                    line s)))).
  { destruct Hy as [[-> _]| ->]; [exact Hyielded|].
    apply Forall_app; split; [exact Hyielded|now repeat constructor]. }
  assert (Hcur : block_pb2.rows
                   (current_block (snd (loop_body file_name row_validators_list
                                          file_number line s))) = [row]).
  { unfold all_rows in Hrow.
    assert (Hc : concat (map block_pb2.rows
                   (yielded (snd (loop_body file_name row_validators_list file_number
                                    line s)))) = []).
    { apply concat_nil_Forall; rewrite Forall_map; exact Hall. }
    now rewrite Hc in Hrow. }
  destruct Hy as [[Hy Hne]|Hy]; rewrite Hy in *.
  - destruct (yielded s) as [|b0 bs]; [contradiction|].
    exists b0, bs; inversion Hall; subst; auto.
  - destruct (yielded s) as [|b0 bs]; simpl.
    + exists (current_block s), []; auto.
    + exists b0, (bs ++ [current_block s])%list; inversion Hyielded; subst; auto.
Qed.

(** The row is the first row of a block that was yielded after the first
    block, or of the open block, which then is not the first block. *)
Definition row_placed (row : row_pb2.Row) (s : pstate) : Prop :=
  (exists b, In b (tl (yielded s)) /\ hd_error (block_pb2.rows b) = Some row) \/
  (yielded s <> [] /\ hd_error (block_pb2.rows (current_block s)) = Some row).

Lemma in_tl_app (A : Type) (l l' : list A) x : In x (tl l) -> In x (tl (l ++ l')).
Proof. destruct l; simpl; [contradiction|]; intros H; apply in_or_app; now left. Qed.

Lemma loop_body_row_placed row line s :
  row_placed row s ->
  row_placed row (snd (loop_body file_name row_validators_list file_number line s)).
Proof.
  intros Hp.
  pose proof (loop_body_blocks file_name row_validators_list file_number line s) as H.
  simpl in H; unfold row_placed.
  destruct H as [[-> (new & ->)]| ->].
  - destruct Hp as [Hp|[Hne Hhd]]; [now left|right; split; [exact Hne|]].
    destruct (block_pb2.rows (current_block s)); [discriminate|exact Hhd].
  - left; destruct Hp as [(b & Hin & Hhd)|[Hne Hhd]].
    + exists b; split; [now apply in_tl_app|exact Hhd].
    + exists (current_block s); split; [|exact Hhd].
      destruct (yielded s); [contradiction|]; simpl; apply in_or_app; right; now left.
Qed.

Lemma for_lines_row_placed row ls : forall s,
  row_placed row s ->
  row_placed row (snd (for_lines file_name row_validators_list file_number ls s)).
Proof.
  induction ls as [|line ls IH]; intros s Hp; [exact Hp|].
  rewrite for_lines_cons.
  pose proof (@loop_body_row_placed row line s Hp) as Hstep.
  destruct (loop_body file_name row_validators_list file_number line s) as [[e|[]] s'];
    simpl in *; [exact Hstep|now apply IH].
Qed.

End FirstRow.

(** C9: let the lines before a line give no row and raise nothing, and
    let that line give the first row, its row type not being HEAD-class
    (a body row, whatever its block number, or a FOOT-class row).  Then
    the first block the generator yields is a block without rows, of the
    default type, and when the generator ends without an exception a
    later block has that row as its first row. *)
Theorem first_row_after_empty_block file_name row_validators_list file_number
    pre line rest first row :
  let before := for_lines file_name row_validators_list file_number pre
                  (start file_number) in
  let out := parse_file file_name row_validators_list file_number
               (pre ++ line :: rest) in
  fst before = inr tt ->
  all_rows (snd before) = [] ->
  hd_error line = Some first ->
  PyStr.mem (PyStr.upper first) constants.HEAD_ROWS = false ->
  all_rows (snd (loop_body file_name row_validators_list file_number line (snd before)))
    = [row] ->
  exists b0 bs,
    yielded (snd out) = b0 :: bs /\
    block_pb2.rows b0 = [] /\
    block_pb2.type b0 = block_pb2.HEAD /\
    (fst out = inr tt ->
     exists b, In b bs /\ hd_error (block_pb2.rows b) = Some row).
Proof.
  simpl; intros Hok Hnone Hhd Hclass Hrow.
  assert (Hlead : leading (snd (for_lines file_name row_validators_list file_number pre
                                  (start file_number)))).
  { apply for_lines_leading; [split; reflexivity|exact Hnone]. }
  destruct (first_row_step file_name row_validators_list file_number line Hlead Hhd
              Hclass Hrow) as (b0 & bs & Hy & Hb0 & Ht & Hcur).
  pose proof (loop_body_rows file_name row_validators_list file_number line
                (snd (for_lines file_name row_validators_list file_number pre
                        (start file_number)))) as Hstep.
  simpl in Hstep; rewrite Hrow, Hnone in Hstep.
  destruct Hstep as [Hstep|(Hstep & _)]; [discriminate|].
  rewrite parse_file_loop_end; unfold loop_end; rewrite for_lines_app.
  destruct (for_lines file_name row_validators_list file_number pre (start file_number))
    as [[e|[]] s0]; cbn [fst snd] in *; [discriminate|].
  rewrite for_lines_cons.
  destruct (loop_body file_name row_validators_list file_number line s0) as [[e|[]] s1];
    cbn [fst snd] in *; [discriminate|].
  assert (Hp : row_placed row s1).
  { right; split; [rewrite Hy; discriminate|now rewrite Hcur]. }
  apply (for_lines_row_placed file_name row_validators_list file_number rest) in Hp.
  destruct (for_lines_yielded file_name row_validators_list file_number rest s1)
    as (more & Hmore).
  rewrite Hy in Hmore; cbn [app] in Hmore.
  destruct (for_lines file_name row_validators_list file_number rest s1) as [[e|[]] s2];
    cbn [fst snd] in *.
  - exists b0, (bs ++ more)%list; rewrite Hmore; repeat split; trivial; discriminate.
  - exists b0, ((bs ++ more) ++ [current_block s2])%list; rewrite Hmore.
    repeat split; trivial; intros _.
    destruct Hp as [(b & Hin & Hb)|[_ Hb]].
    + exists b; split; [|exact Hb].
      rewrite Hmore in Hin; cbn [tl] in Hin; apply in_or_app; now left.
    + exists (current_block s2); split; [|exact Hb].
      apply in_or_app; right; now left.
Qed.

Lemma first_row_after_empty_block_witness :
  let row := row_pb2.mkRow "BODY01" 3
               [cell_pb2.mkCell "RecordType" cell_pb2.STRING ["BODY01"] [] [] [];
                cell_pb2.mkCell "Title" cell_pb2.STRING ["foo"] [] [] []] in
  exists b0 bs,
    yielded (snd (parse_file Example.file_name Example.validators 1
                    ([["# note"]; ["XX99"; "1"]] ++ ["BODY01"; "7"; "foo"] :: [])))
    = b0 :: bs /\
    block_pb2.rows b0 = [] /\
    block_pb2.type b0 = block_pb2.HEAD /\
    (fst (parse_file Example.file_name Example.validators 1
            ([["# note"]; ["XX99"; "1"]] ++ ["BODY01"; "7"; "foo"] :: [])) = inr tt ->
     exists b, In b bs /\ hd_error (block_pb2.rows b) = Some row).
Proof.
  exact (@first_row_after_empty_block Example.file_name Example.validators 1
           [["# note"]; ["XX99"; "1"]] ["BODY01"; "7"; "foo"] [] "BODY01"
           (row_pb2.mkRow "BODY01" 3
              [cell_pb2.mkCell "RecordType" cell_pb2.STRING ["BODY01"] [] [] [];
               cell_pb2.mkCell "Title" cell_pb2.STRING ["foo"] [] [] []])
           eq_refl eq_refl eq_refl eq_refl eq_refl).
Defined.

(** * Further properties of the parser *)

(** ** The sequence of blocks *)

Section Blocks.

Variable file_name : string.
Variable row_validators_list : row_validators.
Variable file_number : Z.

Lemma for_lines_yielded_length ls : forall s,
  (List.length (yielded (snd (for_lines file_name row_validators_list file_number ls s)))
   <= List.length (yielded s) + List.length ls)%nat.
Proof.
  induction ls as [|line ls IH]; intros s; [simpl; lia|].
  rewrite for_lines_cons; cbn [List.length].
  pose proof (loop_body_blocks file_name row_validators_list file_number line s) as H.
  simpl in H.
  destruct (loop_body file_name row_validators_list file_number line s) as [[e|[]] s'];
    cbn [fst snd] in *.
  - destruct H as [[-> _]| ->]; rewrite ?length_app; simpl; lia.
  - specialize (IH s').
    destruct H as [[Hy _]|Hy]; rewrite Hy in IH; rewrite ?length_app in IH; simpl in IH; lia.
Qed.

Lemma loop_body_escape line s e :
  fst (loop_body file_name row_validators_list file_number line s) = inl e ->
  is_ValidationError e = false.
Proof.
  unfold loop_body, try_except_ValidationError, bind, lift, gets, set_row_number,
    logger, modify, ret, getitem; simpl.
  destruct line as [|first rest]; simpl; [now intros H; inversion H|].
  destruct (PyStr.startswith first constants.COMMENT_SIGN); simpl; [discriminate|].
  match goal with |- context [try_suite ?f ?t ?n ?l ?s0] =>
    destruct (try_suite f t n l s0) as [[e'|[]] s']
  end; simpl; [|discriminate].
  destruct (is_ValidationError e') eqn:He; simpl; [discriminate|].
  now intros H; inversion H; subst.
Qed.

Lemma for_lines_escape ls : forall s e,
  fst (for_lines file_name row_validators_list file_number ls s) = inl e ->
  is_ValidationError e = false.
Proof.
  induction ls as [|line ls IH]; intros s e; [discriminate|].
  rewrite for_lines_cons.
  pose proof (@loop_body_escape line s) as H.
  destruct (loop_body file_name row_validators_list file_number line s) as [[e'|[]] s'];
    cbn [fst snd] in *; [|apply IH].
  intros He; inversion He; subst; now apply H.
Qed.

End Blocks.

(** X1: the rows of all the blocks the generator yields, taken block after
    block, have strictly increasing row numbers: the blocks come in the
    order of the file and no line gives a row to two blocks.  This holds
    also for the blocks yielded before an exception ended the generator. *)
Theorem blocks_in_file_order file_name row_validators_list file_number lines :
  StronglySorted before
    (concat (map block_pb2.rows
       (yielded (snd (parse_file file_name row_validators_list file_number lines))))).
Proof.
  pose proof (inv_sorted (loop_end_Inv file_name row_validators_list file_number lines))
    as Hs.
  rewrite parse_file_loop_end.
  unfold all_rows in Hs.
  destruct (loop_end file_name row_validators_list file_number lines) as [[e|[]] s];
    cbn [fst snd yielded] in *.
  - apply (StronglySorted_segment (R := before) [] _ (block_pb2.rows (current_block s))).
    exact Hs.
  - rewrite map_app, concat_app; simpl; now rewrite app_nil_r.
Qed.

(** X2: the generator yields at most one block more than the file has
    lines: a line closes at most one block, and one block is flushed at
    the end. *)
Theorem at_most_one_block_per_line file_name row_validators_list file_number lines :
  (List.length (yielded (snd (parse_file file_name row_validators_list file_number lines)))
   <= List.length lines + 1)%nat.
Proof.
  rewrite parse_file_loop_end; unfold loop_end.
  pose proof (for_lines_yielded_length file_name row_validators_list file_number lines
                (start file_number)) as H.
  destruct (for_lines file_name row_validators_list file_number lines (start file_number))
    as [[e|[]] s]; cbn [fst snd yielded] in *; simpl in H.
  - lia.
  - rewrite length_app; simpl; lia.
Qed.

(** X3: what the generator yields for the first lines of a file, apart
    from the last block it yields for them, it yields in the same order
    at the start for the whole file: a block that was closed is never
    changed by the lines that follow. *)
Theorem closed_blocks_are_final file_name row_validators_list file_number pre rest :
  exists more,
    yielded (snd (parse_file file_name row_validators_list file_number (pre ++ rest)))
    = (removelast
         (yielded (snd (parse_file file_name row_validators_list file_number pre)))
       ++ more)%list.
Proof.
  rewrite !parse_file_loop_end; unfold loop_end; rewrite for_lines_app.
  destruct (for_lines file_name row_validators_list file_number pre (start file_number))
    as [[e|[]] s]; cbn [fst snd yielded].
  - destruct (yielded s) as [|b bs] using rev_ind.
    + exists []; reflexivity.
    + rewrite removelast_last; exists [b]; reflexivity.
  - rewrite removelast_last.
    destruct (for_lines_yielded file_name row_validators_list file_number rest s)
      as (more & Hmore).
    destruct (for_lines file_name row_validators_list file_number rest s) as [[e|[]] s'];
      cbn [fst snd yielded] in *; rewrite Hmore.
    + now exists more.
    + exists (more ++ [current_block s'])%list; now rewrite app_assoc.
Qed.

(** X4: an exception that ends the generator is never a validation
    error: every validation failure is caught at its line. *)
Theorem validation_errors_never_escape file_name row_validators_list file_number lines e :
  fst (parse_file file_name row_validators_list file_number lines) = inl e ->
  is_ValidationError e = false.
Proof.
  rewrite parse_file_loop_end; unfold loop_end.
  pose proof (@for_lines_escape file_name row_validators_list file_number lines
                (start file_number) e) as H.
  destruct (for_lines file_name row_validators_list file_number lines (start file_number))
    as [[e'|[]] s]; cbn [fst snd] in *; [exact H|discriminate].
Qed.

Lemma validation_errors_never_escape_witness :
  fst (parse_file Example.file_name Example.validators 1 [["HEAD"; "3.0"]; []])
  = inl IndexError /\
  is_ValidationError IndexError = false.
Proof.
  assert (H : fst (parse_file Example.file_name Example.validators 1
                     [["HEAD"; "3.0"]; []]) = inl IndexError) by reflexivity.
  split; [exact H|].
  exact (validation_errors_never_escape Example.file_name Example.validators 1
           [["HEAD"; "3.0"]; []] H).
Defined.

(** X5: every call of a cell validator is made with the parser's file
    name, with the number of a line of the file as row number, and with
    the content of a field of that line: the field that [zip] pairs with
    the validator in the validator list of the line's row type. *)
Theorem validator_call_arguments file_name row_validators_list file_number lines c :
  In c (calls (snd (parse_file file_name row_validators_list file_number lines))) ->
  call_file_name c = file_name /\
  exists line first row_validator cell_validator,
    nth_error lines (Z.to_nat (call_row_number c - 1)) = Some line /\
    1 <= call_row_number c /\
    hd_error line = Some first /\
    dict.get row_validators_list (PyStr.upper first) = Some row_validator /\
    In (Some cell_validator, call_content c) (combine row_validator line) /\
    call_cell_name c = cell_name cell_validator.
Proof.
  intros Hc.
  destruct (parse_file_call_in _ _ _ _ _ Hc) as (_ & line & Hat & Hcall).
  unfold line_at in Hat.
  destruct (Z.leb_spec (call_row_number c) 0); [discriminate|].
  destruct Hcall as (first & rv & bn & Hhd & Hget & _ & _ & Hfile & _ & v & Hin & Hname).
  split; [exact Hfile|].
  exists line, first, rv, v; repeat split; trivial; lia.
Qed.

Lemma validator_call_arguments_witness :
  In (mkCall "Title" "baz" 5 Example.file_name (BlockInt 2))
    (calls (snd (parse_file Example.file_name Example.validators 1 Example.lines))) /\
  Example.file_name = Example.file_name /\
  exists line first row_validator cell_validator,
    nth_error Example.lines 4 = Some line /\
    1 <= 5 /\
    hd_error line = Some first /\
    dict.get Example.validators (PyStr.upper first) = Some row_validator /\
    In (Some cell_validator, "baz") (combine row_validator line) /\
    "Title" = cell_name cell_validator.
Proof.
  assert (H : In (mkCall "Title" "baz" 5 Example.file_name (BlockInt 2))
                (calls (snd (parse_file Example.file_name Example.validators 1
                               Example.lines))))
    by (vm_compute; do 9 right; left; reflexivity).
  split; [exact H|].
  exact (validator_call_arguments Example.file_name Example.validators 1 Example.lines _ H).
Defined.

(** ** What a line leaves behind *)

Section Leaves.

Variable file_name : string.
Variable row_validators_list : row_validators.
Variable file_number : Z.

Local Arguments PyStr.mem : simpl never.
Local Arguments String.eqb : simpl never.
Local Arguments _get_row_type : simpl never.
Local Arguments is_end_of_block : simpl never.
Local Arguments get_block_number : simpl never.

(** A log entry of [logger.error]. *)
Definition is_error (entry : log_entry) : bool :=
  match entry with
  | LogError _ => true
  | _ => false
  end.

(** The number of errors logged so far. *)
Definition errors (s : pstate) : nat := List.length (filter is_error (log s)).

(** All blocks of the state belong to the file with this number. *)
Definition of_file (s : pstate) : Prop :=
  Forall (fun b => block_pb2.file_number b = file_number) (yielded s) /\
  block_pb2.file_number (current_block s) = file_number.

Ltac row_object' :=
  match goal with
  | |- context [get_row_object ?f ?rv ?l ?n ?bn ?s] =>
      let cs := fresh "cs" in
      let Hs := fresh "Hs" in
      let Hc := fresh "Hc" in
      let Hr := fresh "Hr" in
      let e := fresh "e" in
      let row := fresh "row" in
      let s' := fresh "s'" in
      destruct (get_row_object_spec f rv l n bn s) as (cs & Hs & Hc & Hr);
      destruct (get_row_object f rv l n bn s) as [[e|row] s'];
      simpl in Hs; subst s'; [clear Hr | specialize (Hr _ eq_refl)]
  end.

Ltac split_match' :=
  match goal with
  | |- context [match ?x with _ => _ end] =>
      lazymatch x with
      | context [get_row_object] => fail
      | context [match _ with _ => _ end] => fail
      | _ => destruct x eqn:?
      end
  end.

Ltac run_suite' :=
  unfold try_suite, bind, lift, gets, when, yield, set_current_block,
    update_current_block, logger, modify, ret;
  simpl; repeat (first [row_object' | split_match']; simpl).

(** The suite of the [try] statement logs no error itself. *)
Lemma try_suite_errors line s :
  errors (snd (try_suite file_name row_validators_list file_number line s)) = errors s.
Proof.
  unfold errors; run_suite'; rewrite ?filter_app; simpl; rewrite ?app_nil_r; reflexivity.
Qed.

(** When the suite returns, it has stored a row. *)
Lemma try_suite_returns line s :
  fst (try_suite file_name row_validators_list file_number line s) = inr tt ->
  exists row,
    all_rows (snd (try_suite file_name row_validators_list file_number line s))
    = (all_rows s ++ [row])%list.
Proof.
  run_suite'; try discriminate; intros _; eexists; unfold all_rows; simpl;
    rewrite ?map_app, ?concat_app; simpl; rewrite ?app_nil_r, <- ?app_assoc; reflexivity.
Qed.

Lemma try_suite_of_file line s :
  of_file s -> of_file (snd (try_suite file_name row_validators_list file_number line s)).
Proof.
  unfold of_file; intros [Hy Hc]; run_suite'; split; simpl; trivial.
  all: apply Forall_app; split; [exact Hy|now repeat constructor].
Qed.

(** One turn of the loop that returns has seen a comment line, or stored
    one row, or logged one error. *)
Lemma loop_body_accounts line s :
  fst (loop_body file_name row_validators_list file_number line s) = inr tt ->
  let s' := snd (loop_body file_name row_validators_list file_number line s) in
  (List.length (all_rows s') + errors s' + (if is_comment line then 1 else 0)
   = List.length (all_rows s) + errors s + 1)%nat.
Proof.
  unfold loop_body, try_except_ValidationError, bind, lift, gets, set_row_number,
    logger, modify, ret, getitem; simpl.
  destruct line as [|first rest]; simpl; [discriminate|].
  destruct (PyStr.startswith first constants.COMMENT_SIGN); simpl;
    [intros _; unfold errors, all_rows; simpl; lia|].
  match goal with |- context [try_suite ?f ?t ?n ?l ?s0] =>
    pose proof (try_suite_errors l s0) as He;
    pose proof (try_suite_returns l s0) as Hr;
    pose proof (try_suite_rows f t n l s0) as Hrows;
    destruct (try_suite f t n l s0) as [[e|[]] s']
  end; cbn [fst snd] in *.
  - destruct (is_ValidationError e); simpl; [intros _|discriminate].
    destruct Hrows as [Hrows|[Hrows _]]; [|discriminate].
    apply (f_equal (@List.length _)) in Hrows.
    unfold all_rows, errors in *; simpl in *.
    rewrite filter_app, !length_app in *; simpl; lia.
  - intros _; destruct (Hr eq_refl) as (row & Hrow).
    apply (f_equal (@List.length _)) in Hrow.
    unfold all_rows, errors in *; simpl in *.
    rewrite !length_app in *; simpl in *; lia.
Qed.

Lemma loop_body_of_file line s :
  of_file s -> of_file (snd (loop_body file_name row_validators_list file_number line s)).
Proof.
  intros Hs.
  unfold loop_body, try_except_ValidationError, bind, lift, gets, set_row_number,
    logger, modify, ret, getitem; simpl.
  destruct line as [|first rest]; simpl; [exact Hs|].
  destruct (PyStr.startswith first constants.COMMENT_SIGN); simpl; [exact Hs|].
  match goal with |- context [try_suite ?f ?t ?n ?l ?s0] =>
    assert (H0 : of_file s0) by exact Hs;
    pose proof (try_suite_of_file l H0) as H;
    destruct (try_suite f t n l s0) as [[e|[]] s']
  end; cbn [fst snd] in *; [|exact H].
  destruct (is_ValidationError e); exact H.
Qed.

Lemma for_lines_accounts ls : forall s,
  fst (for_lines file_name row_validators_list file_number ls s) = inr tt ->
  let s' := snd (for_lines file_name row_validators_list file_number ls s) in
  (List.length (all_rows s') + errors s' + List.length (filter is_comment ls)
   = List.length (all_rows s) + errors s + List.length ls)%nat.
Proof.
  induction ls as [|line ls IH]; intros s; [simpl; lia|].
  rewrite for_lines_cons.
  pose proof (@loop_body_accounts line s) as Hstep.
  destruct (loop_body file_name row_validators_list file_number line s) as [[e|[]] s'];
    cbn [fst snd] in *; [discriminate|].
  intros Hok; specialize (IH s' Hok); specialize (Hstep eq_refl); cbn zeta in *.
  cbn [filter List.length]. destruct (is_comment line); cbn [List.length]; lia.
Qed.

Lemma for_lines_of_file ls : forall s,
  of_file s -> of_file (snd (for_lines file_name row_validators_list file_number ls s)).
Proof.
  induction ls as [|line ls IH]; intros s Hs; [exact Hs|].
  rewrite for_lines_cons.
  pose proof (@loop_body_of_file line s Hs) as Hstep.
  destruct (loop_body file_name row_validators_list file_number line s) as [[e|[]] s'];
    cbn [fst snd] in *; [exact Hstep|now apply IH].
Qed.

End Leaves.

(** X6: when the generator ends without an exception, every physical
    line is accounted for exactly once: it is a comment line, or it gave
    one row to one of the yielded blocks, or one error was logged for it. *)
Theorem every_line_is_accounted_for file_name row_validators_list file_number lines :
  let out := parse_file file_name row_validators_list file_number lines in
  fst out = inr tt ->
  List.length lines
  = (List.length (concat (map block_pb2.rows (yielded (snd out))))
     + List.length (filter is_error (log (snd out)))
     + List.length (filter is_comment lines))%nat.
Proof.
  cbn zeta; rewrite parse_file_loop_end; unfold loop_end.
  pose proof (@for_lines_accounts file_name row_validators_list file_number lines
                (start file_number)) as H.
  destruct (for_lines file_name row_validators_list file_number lines (start file_number))
    as [[e|[]] s]; cbn [fst snd yielded log] in *; [discriminate|].
  intros _; specialize (H eq_refl); cbn zeta in H.
  unfold all_rows, errors in H; simpl in H.
  rewrite map_app, concat_app; simpl; rewrite app_nil_r; lia.
Qed.

Lemma every_line_is_accounted_for_witness :
  let lines := [["HEAD"; "3.0"]; ["# note"]; ["XX99"; "1"]; ["BODY01"; "one"; "foo"];
                ["BODY01"; "1"; "bar"]] in
  let out := parse_file Example.file_name Example.validators 1 lines in
  fst out = inr tt /\
  List.length (concat (map block_pb2.rows (yielded (snd out)))) = 2%nat /\
  List.length (filter is_error (log (snd out))) = 2%nat /\
  List.length (filter is_comment lines) = 1%nat /\
  List.length lines
  = (List.length (concat (map block_pb2.rows (yielded (snd out))))
     + List.length (filter is_error (log (snd out)))
     + List.length (filter is_comment lines))%nat.
Proof.
  cbn zeta.
  assert (H : fst (parse_file Example.file_name Example.validators 1
                     [["HEAD"; "3.0"]; ["# note"]; ["XX99"; "1"];
                      ["BODY01"; "one"; "foo"]; ["BODY01"; "1"; "bar"]]) = inr tt)
    by (vm_compute; reflexivity).
  split; [exact H|].
  split; [vm_compute; reflexivity|].
  split; [vm_compute; reflexivity|].
  split; [vm_compute; reflexivity|].
  exact (every_line_is_accounted_for Example.file_name Example.validators 1 _ H).
Defined.

(** X7: every block the generator yields carries the file number that
    [parse_file] was called with. *)
Theorem blocks_carry_file_number file_name row_validators_list file_number lines b :
  In b (yielded (snd (parse_file file_name row_validators_list file_number lines))) ->
  block_pb2.file_number b = file_number.
Proof.
  rewrite parse_file_loop_end; unfold loop_end.
  assert (Hstart : of_file file_number (start file_number)) by (split; [constructor|reflexivity]).
  pose proof (for_lines_of_file file_name row_validators_list lines Hstart) as [Hy Hc].
  destruct (for_lines file_name row_validators_list file_number lines (start file_number))
    as [[e|[]] s]; cbn [fst snd yielded] in *; rewrite Forall_forall in Hy.
  - apply Hy.
  - intros H; apply in_app_or in H; destruct H as [H|[<-|[]]]; [now apply Hy|exact Hc].
Qed.

Lemma blocks_carry_file_number_witness :
  In (nth 2 (yielded (snd (parse_file Example.file_name Example.validators 7
                             Example.lines))) (block_pb2.new 0))
    (yielded (snd (parse_file Example.file_name Example.validators 7 Example.lines))) /\
  block_pb2.file_number
    (nth 2 (yielded (snd (parse_file Example.file_name Example.validators 7
                            Example.lines))) (block_pb2.new 0)) = 7.
Proof.
  assert (H : In (nth 2 (yielded (snd (parse_file Example.file_name Example.validators 7
                                         Example.lines))) (block_pb2.new 0))
                (yielded (snd (parse_file Example.file_name Example.validators 7
                                 Example.lines))))
    by (vm_compute; do 2 right; left; reflexivity).
  split; [exact H|].
  exact (blocks_carry_file_number Example.file_name Example.validators 7 Example.lines _ H).
Defined.

(** ** BODY blocks *)

Ltac suite_row_object :=
  match goal with
  | |- context [get_row_object ?f ?rv ?l ?n ?bn ?s] =>
      let cs := fresh "cs" in
      let Hs := fresh "Hs" in
      let Hc := fresh "Hc" in
      let Hr := fresh "Hr" in
      let e := fresh "e" in
      let row := fresh "row" in
      let s' := fresh "s'" in
      destruct (get_row_object_spec f rv l n bn s) as (cs & Hs & Hc & Hr);
      destruct (get_row_object f rv l n bn s) as [[e|row] s'];
      simpl in Hs; subst s'; [clear Hr | specialize (Hr _ eq_refl)]
  end.

Ltac suite_split_match :=
  match goal with
  | |- context [match ?x with _ => _ end] =>
      lazymatch x with
      | context [get_row_object] => fail
      | context [match _ with _ => _ end] => fail
      | _ => destruct x eqn:?
      end
  end.

Ltac suite_cases :=
  unfold try_suite, bind, lift, gets, when, yield, set_current_block,
    update_current_block, logger, modify, ret;
  simpl; repeat (first [suite_row_object | suite_split_match]; simpl).

Section BodyBlocks.

Variable file_name : string.
Variable row_validators_list : row_validators.
Variable file_number : Z.

Local Arguments PyStr.mem : simpl never.
Local Arguments String.eqb : simpl never.
Local Arguments _get_row_type : simpl never.
Local Arguments is_end_of_block : simpl never.
Local Arguments get_block_number : simpl never.

(** What [is_end_of_block] has seen when it answers false. *)
Lemma is_end_of_block_false line n b :
  is_end_of_block file_name line n b = inr false ->
  match block_pb2.type b with
  | block_pb2.HEAD =>
      exists first, hd_error line = Some first /\
                    PyStr.mem first constants.HEAD_ROWS = true
  | block_pb2.FOOT =>
      exists first, hd_error line = Some first /\
                    PyStr.mem first constants.FOOT_ROWS = true
  | block_pb2.BODY => get_block_number file_name line n = inr (block_pb2.number b)
  end.
Proof.
  unfold is_end_of_block, getitem.
  destruct line as [|first rest]; simpl; [discriminate|].
  destruct (block_pb2.type b).
  - intros H; exists first; split; [reflexivity|].
    destruct (PyStr.mem first constants.HEAD_ROWS); [reflexivity|discriminate].
  - destruct (PyStr.mem first constants.FOOT_ROWS); [discriminate|].
    destruct (get_block_number file_name (first :: rest) n) as [e|k]; [discriminate|].
    intros H; inversion H as [Hk].
    destruct (Z.eqb_spec (block_pb2.number b) k); [now subst|discriminate].
  - intros H; exists first; split; [reflexivity|].
    destruct (PyStr.mem first constants.FOOT_ROWS); [reflexivity|discriminate].
Qed.

(** A body row made from a line whose block number is [k]. *)
Definition body_row_of (line : list string) (n k : Z) (r : row_pb2.Row) : Prop :=
  head_or_foot (row_pb2.type r) = false /\
  row_pb2.row_number r = n /\
  exists field, nth_error line 1 = Some field /\ PyStr.int field = Some k.

Lemma try_suite_body_block line s :
  let s' := snd (try_suite file_name row_validators_list file_number line s) in
  block_pb2.type (current_block s') = block_pb2.BODY ->
  (block_pb2.rows (current_block s') = block_pb2.rows (current_block s) /\
   block_pb2.type (current_block s) = block_pb2.BODY /\
   block_pb2.number (current_block s') = block_pb2.number (current_block s)) \/
  (exists row,
      body_row_of line (row_number s) (block_pb2.number (current_block s')) row /\
      (block_pb2.rows (current_block s') = [row] \/
       (block_pb2.rows (current_block s')
        = (block_pb2.rows (current_block s) ++ [row])%list /\
        block_pb2.type (current_block s) = block_pb2.BODY /\
        block_pb2.number (current_block s) = block_pb2.number (current_block s')))).
Proof.
  suite_cases; intros Hbody; try discriminate; auto.
  all: assert (Hrow : body_row_of line (row_number s) z row);
    [ destruct Hr as (first & Hhd & Hty & Hrn & _);
      destruct (_get_row_type_inr _ _ _ _ Heqr) as (first' & rv & Hhd' & -> & _);
      rewrite Hhd in Hhd'; inversion Hhd'; subst first';
      split; [rewrite Hty; exact Heqb1|split; [exact Hrn|]];
      now apply get_block_number_inr in Heqr1
    | ].
  - right; exists row; split; [exact Hrow|now left].
  - exfalso.
    pose proof (is_end_of_block_false _ _ _ Heqr0) as Hend.
    destruct (block_pb2.type (current_block s)); try discriminate.
    destruct Hend as (first & Hhd & Hm).
    destruct (_get_row_type_inr _ _ _ _ Heqr) as (first' & rv & Hhd' & -> & _).
    rewrite Hhd in Hhd'; inversion Hhd'; subst first'.
    rewrite (head_rows_upper _ Hm), Hm in Heqb1; discriminate.
  - pose proof (is_end_of_block_false _ _ _ Heqr0) as Hend.
    rewrite Hbody, Heqr1 in Hend; inversion Hend; subst z.
    right; exists row; split; [exact Hrow|right; auto].
Qed.

Variable lines : list (list string).

(** A body row of the file whose line has the block number [k]. *)
Definition body_row (k : Z) (r : row_pb2.Row) : Prop :=
  head_or_foot (row_pb2.type r) = false /\
  exists line field,
    line_at lines (row_pb2.row_number r) = Some line /\
    nth_error line 1 = Some field /\
    PyStr.int field = Some k.

(** A block that, when its type is BODY, has rows, all of them body rows
    with the block's number. *)
Definition body_ok (b : block_pb2.Block) : Prop :=
  block_pb2.type b = block_pb2.BODY ->
  block_pb2.rows b <> [] /\
  Forall (body_row (block_pb2.number b)) (block_pb2.rows b).

Definition bodies_ok (s : pstate) : Prop :=
  Forall body_ok (yielded s) /\ body_ok (current_block s).

Lemma try_suite_bodies_ok line s :
  line_at lines (row_number s) = Some line ->
  bodies_ok s ->
  bodies_ok (snd (try_suite file_name row_validators_list file_number line s)).
Proof.
  intros Hat [Hy Hc]; split.
  - pose proof (try_suite_blocks file_name row_validators_list file_number line s) as H.
    simpl in H; destruct H as [[-> _]|[-> _]]; [exact Hy|].
    apply Forall_app; split; [exact Hy|constructor; [exact Hc|constructor]].
  - intros Hbody.
    destruct (try_suite_body_block line s Hbody)
      as [(Hrows & Ht & Hn)|(row & (Hhf & Hrn & field & Hf & Hint) & Hrows)].
    + rewrite Hrows, Hn; now apply Hc.
    + assert (Hrow : body_row
                       (block_pb2.number
                          (current_block
                             (snd (try_suite file_name row_validators_list file_number
                                     line s)))) row).
      { split; [exact Hhf|]. exists line, field; rewrite Hrn; auto. }
      destruct Hrows as [->|(-> & Ht & Hn)].
      * split; [discriminate|constructor; [exact Hrow|constructor]].
      * destruct (Hc Ht) as [_ Hall]; split.
        { intros H; apply app_eq_nil in H; destruct H; discriminate. }
        apply Forall_app; split; [now rewrite <- Hn|constructor; [exact Hrow|constructor]].
Qed.

Lemma loop_body_bodies_ok line s :
  0 <= row_number s ->
  nth_error lines (Z.to_nat (row_number s)) = Some line ->
  bodies_ok s ->
  bodies_ok (snd (loop_body file_name row_validators_list file_number line s)).
Proof.
  intros Hn Hline Hs.
  pose proof (line_at_next lines Hn Hline) as Hat.
  unfold loop_body, try_except_ValidationError, bind, lift, gets, set_row_number,
    logger, modify, ret, getitem; simpl.
  destruct line as [|first rest]; simpl; [exact Hs|].
  destruct (PyStr.startswith first constants.COMMENT_SIGN); simpl; [exact Hs|].
  match goal with |- context [try_suite ?f ?t ?n ?l ?s0] =>
    assert (H0 : bodies_ok s0) by exact Hs;
    pose proof (@try_suite_bodies_ok l s0 Hat H0) as H;
    destruct (try_suite f t n l s0) as [[e|[]] s']
  end; cbn [fst snd] in *; [|exact H].
  destruct (is_ValidationError e); exact H.
Qed.

Lemma for_lines_bodies_ok ls : forall pre s,
  lines = (pre ++ ls)%list ->
  row_number s = Z.of_nat (List.length pre) ->
  bodies_ok s ->
  bodies_ok (snd (for_lines file_name row_validators_list file_number ls s)).
Proof.
  induction ls as [|line ls IH]; intros pre s Hlines Hrn Hs; [exact Hs|].
  rewrite for_lines_cons.
  assert (Hline : nth_error lines (Z.to_nat (row_number s)) = Some line).
  { rewrite Hrn, Nat2Z.id, Hlines, nth_error_app2, Nat.sub_diag by lia; reflexivity. }
  assert (Hn : 0 <= row_number s) by lia.
  pose proof (loop_body_bodies_ok Hn Hline Hs) as Hs'.
  pose proof (loop_body_row_number file_name row_validators_list file_number line s) as Hrn'.
  destruct (loop_body file_name row_validators_list file_number line s) as [[e|[]] s'];
    cbn [fst snd] in *; [exact Hs'|].
  apply (IH (pre ++ [line])%list); trivial.
  - now rewrite <- app_assoc.
  - rewrite length_app; simpl; lia.
Qed.

End BodyBlocks.

(** X8: a block that the generator yields with type BODY has at least
    one row; every one of its rows is a body row (its row type is neither
    HEAD-class nor FOOT-class), and the second field of the line of each
    row is an integer, the number of the block. *)
Theorem body_blocks_hold_their_number file_name row_validators_list file_number lines b :
  In b (yielded (snd (parse_file file_name row_validators_list file_number lines))) ->
  block_pb2.type b = block_pb2.BODY ->
  block_pb2.rows b <> [] /\
  forall r, In r (block_pb2.rows b) ->
    head_or_foot (row_pb2.type r) = false /\
    exists line field,
      nth_error lines (Z.to_nat (row_pb2.row_number r - 1)) = Some line /\
      nth_error line 1 = Some field /\
      PyStr.int field = Some (block_pb2.number b).
Proof.
  intros Hb Hbody.
  assert (Hstart : bodies_ok lines (start file_number))
    by (split; [constructor|discriminate]).
  pose proof (@for_lines_bodies_ok file_name row_validators_list file_number lines lines
                [] (start file_number) eq_refl eq_refl Hstart) as [Hy Hc].
  apply in_yielded_parse_file in Hb; unfold loop_end in Hb.
  assert (Hok : body_ok lines b).
  { destruct Hb as [Hb| ->]; [|exact Hc]. rewrite Forall_forall in Hy; now apply Hy. }
  destruct (Hok Hbody) as [Hne Hall]; split; [exact Hne|].
  intros r Hr; rewrite Forall_forall in Hall.
  destruct (Hall r Hr) as (Hhf & line & field & Hat & Hf & Hint).
  split; [exact Hhf|]. exists line, field; repeat split; trivial.
  unfold line_at in Hat.
  destruct (Z.leb_spec (row_pb2.row_number r) 0); [discriminate|exact Hat].
Qed.

Lemma body_blocks_hold_their_number_witness :
  In (nth 1 Example.blocks (block_pb2.new 1))
    (yielded (snd (parse_file Example.file_name Example.validators 1 Example.lines))) /\
  block_pb2.type (nth 1 Example.blocks (block_pb2.new 1)) = block_pb2.BODY /\
  block_pb2.rows (nth 1 Example.blocks (block_pb2.new 1)) <> [].
Proof.
  assert (Hb : In (nth 1 Example.blocks (block_pb2.new 1))
                 (yielded (snd (parse_file Example.file_name Example.validators 1
                                  Example.lines))))
    by (vm_compute; right; left; reflexivity).
  assert (Ht : block_pb2.type (nth 1 Example.blocks (block_pb2.new 1)) = block_pb2.BODY)
    by (vm_compute; reflexivity).
  split; [exact Hb|split; [exact Ht|]].
  exact (proj1 (body_blocks_hold_their_number Example.file_name Example.validators 1
                  Example.lines _ Hb Ht)).
Defined.

(** ** Where [IndexError] comes from *)

Section IndexErrors.

Variable file_name : string.
Variable row_validators_list : row_validators.
Variable file_number : Z.

Local Arguments PyStr.mem : simpl never.
Local Arguments String.eqb : simpl never.

(** No validator of the table raises [IndexError]. *)
Definition validators_raise_no_IndexError : Prop :=
  forall row_type row_validator v content n bn,
    dict.get row_validators_list row_type = Some row_validator ->
    In (Some v) row_validator ->
    validate_value v content n file_name bn <> inl IndexError.

Lemma checked_no_IndexError (A : Type) (f : pyval -> option A) data :
  cell_pb2.checked f data <> inl IndexError.
Proof.
  induction data as [|v data IH]; simpl; [discriminate|].
  destruct (f v); [|discriminate].
  destruct (cell_pb2.checked f data) as [e|xs]; [|discriminate].
  intros H; apply IH; inversion H; reflexivity.
Qed.

Lemma get_cell_object_no_IndexError v data : get_cell_object v data <> inl IndexError.
Proof.
  unfold get_cell_object; destruct (get_cell_type v).
  all: match goal with
       | |- context [cell_pb2.checked ?f ?d] =>
           pose proof (@checked_no_IndexError _ f d) as H;
           destruct (cell_pb2.checked f d) as [e|xs]; [|discriminate]
       end.
  all: intros H'; apply H; inversion H'; reflexivity.
Qed.

Lemma row_cells_no_IndexError columns n bn : forall s,
  (forall v content, In (Some v, content) columns ->
     validate_value v content n file_name bn <> inl IndexError) ->
  fst (row_cells file_name columns n bn s) <> inl IndexError.
Proof.
  induction columns as [|[[v|] content] columns IH]; intros s Hval; simpl.
  - discriminate.
  - unfold bind, record_call, modify, lift; simpl.
    pose proof (Hval v content (or_introl eq_refl)) as Hv.
    assert (Hrest : forall v' c', In (Some v', c') columns ->
                      validate_value v' c' n file_name bn <> inl IndexError)
      by (intros v' c' Hin; apply Hval; now right).
    destruct (validate_value v content n file_name bn) as [e|data]; simpl.
    + intros H; apply Hv; inversion H; reflexivity.
    + destruct (is_absent data); [now apply IH|].
      pose proof (get_cell_object_no_IndexError v data) as Hc.
      destruct (get_cell_object v data) as [e|cell]; simpl.
      * intros H; apply Hc; inversion H; reflexivity.
      * match goal with |- context [row_cells file_name columns n bn ?s1] =>
          pose proof (IH s1 Hrest) as H;
          destruct (row_cells file_name columns n bn s1) as [[e|cells] s2]
        end; simpl in *; [exact H|discriminate].
  - apply IH; intros v' c' Hin; apply Hval; now right.
Qed.

Lemma get_row_object_no_IndexError row_validator line n bn s :
  (forall v content, In (Some v) row_validator ->
     validate_value v content n file_name bn <> inl IndexError) ->
  line <> [] ->
  fst (get_row_object file_name row_validator line n bn s) <> inl IndexError.
Proof.
  intros Hval Hline; unfold get_row_object, bind, lift, getitem.
  destruct line as [|first rest]; [contradiction|]; simpl.
  pose proof (@row_cells_no_IndexError (combine row_validator (first :: rest)) n bn s) as H.
  destruct (row_cells file_name (combine row_validator (first :: rest)) n bn s)
    as [[e|cells] s1]; simpl in *; [|discriminate].
  intros He; apply H; [|inversion He; reflexivity].
  intros v content Hin; apply Hval; now apply in_combine_l in Hin.
Qed.

Lemma _get_row_type_inl line n e :
  _get_row_type file_name line row_validators_list n = inl e -> is_ValidationError e = true.
Proof.
  unfold _get_row_type; destruct line as [|first rest]; [now inversion 1|].
  destruct (negb _); now inversion 1.
Qed.

Lemma get_block_number_inl first second rest n e :
  get_block_number file_name (first :: second :: rest) n = inl e ->
  is_ValidationError e = true.
Proof.
  unfold get_block_number, getitem; simpl.
  destruct (PyStr.int second); now inversion 1.
Qed.

Lemma is_end_of_block_inl first second rest n b e :
  is_end_of_block file_name (first :: second :: rest) n b = inl e ->
  is_ValidationError e = true.
Proof.
  unfold is_end_of_block, getitem; simpl nth_error; cbv iota.
  destruct (block_pb2.type b); try discriminate.
  destruct (PyStr.mem first constants.FOOT_ROWS); [discriminate|].
  destruct (get_block_number file_name (first :: second :: rest) n) eqn:H; [|discriminate].
  intros H'; inversion H'; subst; now apply get_block_number_inl in H.
Qed.

Local Arguments _get_row_type : simpl never.
Local Arguments is_end_of_block : simpl never.
Local Arguments get_block_number : simpl never.

(** On a line with at least two fields the suite of the [try] statement
    raises no [IndexError] of its own. *)
Lemma try_suite_no_IndexError first second rest s :
  validators_raise_no_IndexError ->
  fst (try_suite file_name row_validators_list file_number (first :: second :: rest) s)
    <> inl IndexError.
Proof.
  intros Hval.
  unfold try_suite, bind, lift, gets, when, yield, set_current_block,
    update_current_block, logger, modify, ret; simpl fst; simpl snd.
  repeat (first
    [ match goal with
      | |- context [get_row_object ?f ?rv ?l ?n ?bn ?s0] =>
          let Hrow := fresh "Hrow" in
          pose proof (@get_row_object_no_IndexError rv l n bn s0) as Hrow;
          destruct (get_row_object f rv l n bn s0) as [[?e|?row] ?s']
      end
    | match goal with
      | |- context [match ?x with _ => _ end] =>
          lazymatch x with
          | context [get_row_object] => fail
          | context [match _ with _ => _ end] => fail
          | _ => destruct x eqn:?
          end
      end ]; simpl).
  all: try discriminate.
  all: intros H; inversion H; subst; clear H.
  all: try match goal with
         | H : _get_row_type _ _ _ _ = inl IndexError |- _ =>
             apply _get_row_type_inl in H; discriminate H
         | H : is_end_of_block _ _ _ _ = inl IndexError |- _ =>
             apply is_end_of_block_inl in H; discriminate H
         | H : get_block_number _ _ _ = inl IndexError |- _ =>
             apply get_block_number_inl in H; discriminate H
         end.
  all: try match goal with
         | Hrt : _get_row_type _ _ _ _ = inr ?rt, Hl : dict.lookup _ ?rt = inl _ |- _ =>
             apply _get_row_type_inr in Hrt; destruct Hrt as (? & ? & _ & _ & Hget);
             unfold dict.lookup in Hl; rewrite Hget in Hl; discriminate
         end.
  all: match goal with
       | Hl : dict.lookup _ _ = inr _ |- _ =>
           apply lookup_inr in Hl; simpl in Hrow; apply Hrow;
           [intros v content Hin; eapply Hval; eassumption|discriminate|reflexivity]
       end.
Qed.

Lemma loop_body_no_IndexError first second rest s :
  validators_raise_no_IndexError ->
  fst (loop_body file_name row_validators_list file_number (first :: second :: rest) s)
    <> inl IndexError.
Proof.
  intros Hval.
  unfold loop_body, try_except_ValidationError, bind, lift, gets, set_row_number,
    logger, modify, ret, getitem; simpl.
  destruct (PyStr.startswith first constants.COMMENT_SIGN); [discriminate|].
  match goal with |- context [try_suite ?f ?t ?n ?l ?s0] =>
    pose proof (@try_suite_no_IndexError first second rest s0 Hval) as H;
    destruct (try_suite f t n l s0) as [[e|[]] s']
  end; simpl in *; [|discriminate].
  destruct (is_ValidationError e); simpl; [discriminate|exact H].
Qed.

Lemma for_lines_no_IndexError lines : forall s,
  validators_raise_no_IndexError ->
  Forall (fun line => (2 <= List.length line)%nat) lines ->
  fst (for_lines file_name row_validators_list file_number lines s) <> inl IndexError.
Proof.
  induction lines as [|line lines IH]; intros s Hval Hall; [discriminate|].
  inversion Hall as [|? ? Hlen Hrest]; subst.
  rewrite for_lines_cons.
  destruct line as [|first [|second rest]]; simpl in Hlen; try lia.
  pose proof (@loop_body_no_IndexError first second rest s Hval) as H.
  destruct (loop_body file_name row_validators_list file_number
              (first :: second :: rest) s) as [[e|[]] s']; simpl in H; [exact H|].
  now apply IH.
Qed.

End IndexErrors.

(** X9: when no validator raises [IndexError], the generator ends with
    [IndexError] only on a file that has a line with fewer than two
    fields: the reads of [line[0]] and [line[1]] are the parser's only
    sources of that exception. *)
Theorem IndexError_needs_a_short_line file_name row_validators_list file_number lines :
  validators_raise_no_IndexError file_name row_validators_list ->
  fst (parse_file file_name row_validators_list file_number lines) = inl IndexError ->
  Exists (fun line => (List.length line < 2)%nat) lines.
Proof.
  intros Hval; rewrite parse_file_loop_end; unfold loop_end.
  pose proof (@for_lines_no_IndexError file_name row_validators_list file_number lines
                (start file_number) Hval) as Hr.
  destruct (for_lines file_name row_validators_list file_number lines (start file_number))
    as [[e|[]] s]; cbn [fst snd] in *; [|discriminate].
  intros He.
  destruct (Forall_Exists_dec (fun line : list string => (2 <= List.length line)%nat)
              (fun line => le_dec 2 (List.length line)) lines) as [Hall|Hex].
  - exfalso; exact (Hr Hall He).
  - eapply Exists_impl; [|exact Hex]; simpl; intros line Hn; lia.
Qed.

Lemma example_validators_raise_no_IndexError :
  validators_raise_no_IndexError Example.file_name Example.validators.
Proof.
  intros row_type rv v content n bn Hget Hin.
  unfold Example.validators in Hget; simpl in Hget.
  repeat match type of Hget with
    | (if ?c then _ else _) = _ => destruct c
    end; try discriminate; inversion Hget; subst; simpl in Hin;
    repeat (destruct Hin as [Hin|Hin]; [inversion Hin; discriminate|]);
    try discriminate; contradiction.
Qed.

Lemma IndexError_needs_a_short_line_witness :
  fst (parse_file Example.file_name Example.validators 1
         [["HEAD"; "3.0"]; ["BODY01"]]) = inl IndexError /\
  Exists (fun line => (List.length line < 2)%nat) [["HEAD"; "3.0"]; ["BODY01"]].
Proof.
  assert (H : fst (parse_file Example.file_name Example.validators 1
                     [["HEAD"; "3.0"]; ["BODY01"]]) = inl IndexError)
    by (vm_compute; reflexivity).
  split; [exact H|].
  exact (@IndexError_needs_a_short_line Example.file_name Example.validators 1
           [["HEAD"; "3.0"]; ["BODY01"]] example_validators_raise_no_IndexError H).
Defined.

(** ** Columns *)

Lemma combine_app_r (A B : Type) (l : list A) (l' extra : list B) :
  (List.length l <= List.length l')%nat -> combine l (l' ++ extra) = combine l l'.
Proof.
  revert l'; induction l as [|a l IH]; intros [|b l'] H; simpl in *; try lia; trivial.
  now rewrite IH by lia.
Qed.

Lemma combine_app_l (A B : Type) (l more : list A) (l' : list B) :
  (List.length l' <= List.length l)%nat -> combine (l ++ more) l' = combine l l'.
Proof.
  revert l'; induction l as [|a l IH]; intros [|b l'] H; simpl in *; try lia; trivial.
  - now destruct more.
  - now rewrite IH by lia.
Qed.

(** X10: [get_row_object] pairs validators and fields with [zip]: with as
    many validators as the line has fields, validators added at the end of
    the list are not called, and fields added at the end of the line are
    not read; the row, the calls and the exception, if any, are the
    same. *)
Theorem zip_stops_at_the_shorter file_name row_validator more fields extra n bn s :
  List.length row_validator = List.length fields ->
  fields <> [] ->
  get_row_object file_name (row_validator ++ more) fields n bn s
  = get_row_object file_name row_validator fields n bn s /\
  get_row_object file_name row_validator (fields ++ extra) n bn s
  = get_row_object file_name row_validator fields n bn s.
Proof.
  intros Hlen Hne; unfold get_row_object.
  rewrite combine_app_l, combine_app_r by lia.
  destruct fields as [|first rest]; [contradiction|]; split; reflexivity.
Qed.

Lemma zip_stops_at_the_shorter_witness :
  get_row_object Example.file_name
    ([Some (Example.accept "RecordType"); Some (Example.accept "Remark")]
       ++ [Some empty_list_validator])
    ["FOOT"; "done"] 6 (BlockStr "FOOT") (start 1)
  = get_row_object Example.file_name
      [Some (Example.accept "RecordType"); Some (Example.accept "Remark")]
      ["FOOT"; "done"] 6 (BlockStr "FOOT") (start 1) /\
  get_row_object Example.file_name
    [Some (Example.accept "RecordType"); Some (Example.accept "Remark")]
    (["FOOT"; "done"] ++ ["more"; "and more"]) 6 (BlockStr "FOOT") (start 1)
  = get_row_object Example.file_name
      [Some (Example.accept "RecordType"); Some (Example.accept "Remark")]
      ["FOOT"; "done"] 6 (BlockStr "FOOT") (start 1).
Proof.
  apply zip_stops_at_the_shorter; [reflexivity|discriminate].
Defined.

(** ** The version of a block *)

Section Versions.

Variable file_name : string.
Variable row_validators_list : row_validators.
Variable file_number : Z.

Local Arguments PyStr.mem : simpl never.
Local Arguments String.eqb : simpl never.
Local Arguments _get_row_type : simpl never.
Local Arguments is_end_of_block : simpl never.
Local Arguments get_block_number : simpl never.

(** The second field of a line whose row type is HEAD. *)
Definition version_of (line : list string) (v : string) : Prop :=
  exists first, hd_error line = Some first /\ PyStr.upper first = "HEAD" /\
                nth_error line 1 = Some v.

Lemma try_suite_version line s :
  let s' := snd (try_suite file_name row_validators_list file_number line s) in
  block_pb2.version (current_block s') = block_pb2.version (current_block s) \/
  block_pb2.version (current_block s') = EmptyString \/
  version_of line (block_pb2.version (current_block s')).
Proof.
  suite_cases; auto.
  all: right; right.
  all: destruct (_get_row_type_inr _ _ _ _ Heqr) as (first & rv & Hhd & -> & _).
  all: exists first; split; [exact Hhd|split; [now apply String.eqb_eq|]].
  all: unfold getitem in *; destruct (nth_error line 1); now inversion Heqr1.
Qed.

Variable lines : list (list string).

(** The version of a block is empty or comes from a HEAD line of the
    file. *)
Definition version_ok (b : block_pb2.Block) : Prop :=
  block_pb2.version b = EmptyString \/
  exists line, In line lines /\ version_of line (block_pb2.version b).

Definition versions_ok (s : pstate) : Prop :=
  Forall version_ok (yielded s) /\ version_ok (current_block s).

Lemma try_suite_versions_ok line s :
  In line lines -> versions_ok s ->
  versions_ok (snd (try_suite file_name row_validators_list file_number line s)).
Proof.
  intros Hin [Hy Hc]; split.
  - pose proof (try_suite_blocks file_name row_validators_list file_number line s) as Hb.
    simpl in Hb; destruct Hb as [[Hb _]|[Hb _]]; rewrite Hb; [exact Hy|].
    apply Forall_app; split; [exact Hy|].
    constructor; [exact Hc|constructor].
  - pose proof (try_suite_version line s) as Hv; simpl in Hv.
    destruct Hv as [Hv|[Hv|Hv]].
    + unfold version_ok; rewrite Hv; exact Hc.
    + now left.
    + right; exists line; auto.
Qed.

Lemma loop_body_versions_ok line s :
  In line lines -> versions_ok s ->
  versions_ok (snd (loop_body file_name row_validators_list file_number line s)).
Proof.
  intros Hin Hs.
  unfold loop_body, try_except_ValidationError, bind, lift, gets, set_row_number,
    logger, modify, ret, getitem; simpl.
  destruct line as [|first rest]; simpl; [exact Hs|].
  destruct (PyStr.startswith first constants.COMMENT_SIGN); simpl; [exact Hs|].
  match goal with |- context [try_suite ?f ?t ?n ?l ?s0] =>
    assert (H0 : versions_ok s0) by exact Hs;
    pose proof (@try_suite_versions_ok l s0 Hin H0) as H;
    destruct (try_suite f t n l s0) as [[e|[]] s']
  end; cbn [fst snd] in *; [|exact H].
  destruct (is_ValidationError e); exact H.
Qed.

Lemma for_lines_versions_ok ls : forall s,
  incl ls lines -> versions_ok s ->
  versions_ok (snd (for_lines file_name row_validators_list file_number ls s)).
Proof.
  induction ls as [|line ls IH]; intros s Hincl Hs; [exact Hs|].
  rewrite for_lines_cons.
  assert (Hin : In line lines) by (apply Hincl; now left).
  pose proof (@loop_body_versions_ok line s Hin Hs) as Hs'.
  destruct (loop_body file_name row_validators_list file_number line s) as [[e|[]] s'];
    cbn [fst snd] in *; [exact Hs'|].
  apply IH; [|exact Hs']. intros l Hl; apply Hincl; now right.
Qed.

End Versions.

(** X11: the version of every block the generator yields is the empty
    string or the second field of a line of the file whose row type is
    HEAD; nothing else is ever stored as a version. *)
Theorem version_comes_from_a_HEAD_line file_name row_validators_list file_number lines b :
  In b (yielded (snd (parse_file file_name row_validators_list file_number lines))) ->
  block_pb2.version b = EmptyString \/
  exists line first,
    In line lines /\
    hd_error line = Some first /\
    PyStr.upper first = "HEAD" /\
    nth_error line 1 = Some (block_pb2.version b).
Proof.
  intros Hb.
  assert (Hstart : versions_ok lines (start file_number))
    by (split; [constructor|now left]).
  pose proof (@for_lines_versions_ok file_name row_validators_list file_number lines lines
                (start file_number) (incl_refl lines) Hstart) as [Hy Hc].
  apply in_yielded_parse_file in Hb; unfold loop_end in Hb.
  assert (Hok : version_ok lines b).
  { destruct Hb as [Hb| ->]; [|exact Hc]. rewrite Forall_forall in Hy; now apply Hy. }
  destruct Hok as [Hv|(line & Hin & first & Hhd & Hup & Hv)]; [now left|right].
  now exists line, first.
Qed.

Lemma version_comes_from_a_HEAD_line_witness :
  In (nth 0 Example.blocks (block_pb2.new 1))
    (yielded (snd (parse_file Example.file_name Example.validators 1 Example.lines))) /\
  block_pb2.version (nth 0 Example.blocks (block_pb2.new 1)) = "3.0" /\
  (block_pb2.version (nth 0 Example.blocks (block_pb2.new 1)) = EmptyString \/
   exists line first,
     In line Example.lines /\
     hd_error line = Some first /\
     PyStr.upper first = "HEAD" /\
     nth_error line 1 = Some (block_pb2.version (nth 0 Example.blocks (block_pb2.new 1)))).
Proof.
  assert (Hb : In (nth 0 Example.blocks (block_pb2.new 1))
                 (yielded (snd (parse_file Example.file_name Example.validators 1
                                  Example.lines))))
    by (vm_compute; left; reflexivity).
  split; [exact Hb|split; [vm_compute; reflexivity|]].
  exact (version_comes_from_a_HEAD_line Example.file_name Example.validators 1
           Example.lines _ Hb).
Defined.

(** ** Rejected and retyping rows *)

Section EdgeRows.

Variable file_name : string.
Variable row_validators_list : row_validators.
Variable file_number : Z.

Local Arguments PyStr.mem : simpl never.
Local Arguments PyStr.upper : simpl never.
Local Arguments PyStr.startswith : simpl never.
Local Arguments String.eqb : simpl never.
Local Arguments get_row_object : simpl never.

Lemma foot_rows_upper first :
  PyStr.mem first constants.FOOT_ROWS = true -> PyStr.upper first = first.
Proof.
  unfold PyStr.mem, constants.FOOT_ROWS; simpl.
  repeat match goal with
    | |- context [String.eqb first ?k] =>
        destruct (String.eqb_spec first k) as [->|_]; [intros _; reflexivity|simpl]
    end.
  intros H; discriminate H.
Qed.

Lemma body_row_as_written first :
  head_or_foot (PyStr.upper first) = false ->
  PyStr.mem first constants.HEAD_ROWS = false /\
  PyStr.mem first constants.FOOT_ROWS = false.
Proof.
  unfold head_or_foot; intros H; apply orb_false_iff in H; destruct H as [Hh Hf]; split.
  - now apply not_head_class_as_written.
  - destruct (PyStr.mem first constants.FOOT_ROWS) eqn:Hm; [|reflexivity].
    now rewrite (foot_rows_upper _ Hm), Hm in Hf.
Qed.


(** X12: a body line whose second field is not an integer is dropped
    with one logged row validation failure that carries the row number,
    the file name and a message with the upper-cased field; no validator
    is called and the loop goes on.  An open BODY block stays as it is,
    but an open block of type HEAD or FOOT is yielded and replaced by a
    fresh block before the line is rejected. *)
Theorem non_integer_block_id_is_logged first field rest row_validator s :
  PyStr.startswith first constants.COMMENT_SIGN = false ->
  dict.get row_validators_list (PyStr.upper first) = Some row_validator ->
  head_or_foot (PyStr.upper first) = false ->
  PyStr.int field = None ->
  loop_body file_name row_validators_list file_number (first :: field :: rest) s
  = (inr tt,
     mkState (row_number s + 1)
       (match block_pb2.type (current_block s) with
        | block_pb2.BODY => current_block s
        | _ => block_pb2.new file_number
        end)
       (match block_pb2.type (current_block s) with
        | block_pb2.BODY => yielded s
        | _ => yielded s ++ [current_block s]
        end)
       (log s ++ [LogError (RowValidationFailure (row_number s + 1) file_name
                              (block_id_message (PyStr.upper field) (row_number s + 1)))])
       (calls s)).
Proof.
  intros Hc Hget Hclass Hint.
  destruct (body_row_as_written _ Hclass) as [Hh Hf].
  unfold loop_body, try_except_ValidationError, try_suite, bind, lift, gets,
    set_row_number, logger, modify, ret, when, yield, set_current_block,
    update_current_block, getitem, _get_row_type, is_end_of_block; simpl.
  rewrite Hc, (get_mem _ _ Hget); simpl.
  unfold head_or_foot in Hclass.
  destruct (block_pb2.type (current_block s)); rewrite ?Hh, ?Hf; simpl;
    rewrite ?Hclass; simpl;
    rewrite ?(get_block_number_not_integer file_name first field rest _ Hint); simpl;
    reflexivity.
Qed.

Lemma head_rows_no_comment first :
  PyStr.mem first constants.HEAD_ROWS = true ->
  PyStr.startswith first constants.COMMENT_SIGN = false.
Proof.
  unfold PyStr.mem, constants.HEAD_ROWS; simpl.
  repeat match goal with
    | |- context [String.eqb first ?k] =>
        destruct (String.eqb_spec first k) as [->|_]; [intros _; reflexivity|simpl]
    end.
  intros H; discriminate H.
Qed.

(** X13: the type of a block can change after it was set.  A line whose
    first field is a HEAD-class row type and whose second field is the
    number of the open BODY block does not close that block: with
    accepting validators its row is appended to the block, and the block
    type becomes HEAD. *)
Theorem head_row_joins_body_block first second rest row_validator s :
  PyStr.mem first constants.HEAD_ROWS = true ->
  dict.get row_validators_list first = Some row_validator ->
  all_accepting file_name row_validator ->
  block_pb2.type (current_block s) = block_pb2.BODY ->
  PyStr.int second = Some (block_pb2.number (current_block s)) ->
  exists s' cells,
    loop_body file_name row_validators_list file_number (first :: second :: rest) s
    = (inr tt, s') /\
    yielded s' = yielded s /\
    block_pb2.type (current_block s') = block_pb2.HEAD /\
    block_pb2.number (current_block s') = block_pb2.number (current_block s) /\
    block_pb2.rows (current_block s')
    = (block_pb2.rows (current_block s)
       ++ [row_pb2.mkRow first (row_number s + 1) cells])%list.
Proof.
  intros Hm Hget Hacc Hbody Hint.
  pose proof (head_rows_upper _ Hm) as Hup.
  pose proof (head_rows_not_foot _ Hm) as Hnf.
  destruct (@loop_body_head_or_foot_row file_name row_validators_list file_number
              first second rest row_validator false s)
    as (cells & log' & cs & ->).
  - now apply head_rows_no_comment.
  - now rewrite Hup.
  - exact Hacc.
  - unfold head_or_foot; now rewrite Hup, Hm.
  - unfold is_end_of_block, get_block_number, getitem; simpl.
    now rewrite Hbody, Hnf, Hint, Z.eqb_refl.
  - rewrite Hup, Hnf. eexists; exists cells; split; [reflexivity|].
    destruct (String.eqb first "HEAD"); simpl; auto.
Qed.

End EdgeRows.

Lemma head_row_joins_body_block_witness :
  let s := mkState 3
             (block_pb2.mkBlock block_pb2.BODY 1 EmptyString 1
                [row_pb2.mkRow "BODY01" 3 []]) [] [] [] in
  exists s' cells,
    loop_body Example.file_name Example.validators 1 ["SY01"; "1"] s = (inr tt, s') /\
    yielded s' = [] /\
    block_pb2.type (current_block s') = block_pb2.HEAD /\
    block_pb2.number (current_block s') = 1 /\
    block_pb2.rows (current_block s')
    = ([row_pb2.mkRow "BODY01" 3 []] ++ [row_pb2.mkRow "SY01" (3 + 1) cells])%list.
Proof.
  refine (@head_row_joins_body_block Example.file_name Example.validators 1
            "SY01" "1" []
            [Some (Example.accept "RecordType"); Some (Example.accept "SummaryRecordId")]
            (mkState 3
               (block_pb2.mkBlock block_pb2.BODY 1 EmptyString 1
                  [row_pb2.mkRow "BODY01" 3 []]) [] [] [])
            eq_refl eq_refl _ eq_refl eq_refl).
  intros v [Hin|[Hin|[]]]; inversion Hin; apply accept_accepting.
Defined.

Lemma non_integer_block_id_is_logged_witness :
  loop_body Example.file_name Example.validators 1 ["BODY01"; "abc"; "x"] (start 1)
  = (inr tt,
     mkState 1 (block_pb2.new 1) [block_pb2.new 1]
       [InfoStartHead 1;
        LogError (RowValidationFailure 1 Example.file_name
                    (block_id_message "ABC" 1))]
       []).
Proof.
  exact (@non_integer_block_id_is_logged Example.file_name Example.validators 1
           "BODY01" "abc" ["x"]
           [Some (Example.accept "RecordType"); None; Some (Example.accept "Title")]
           (start 1) eq_refl eq_refl eq_refl eq_refl).
Defined.

(** ** The order of the cells *)

(** [l] is [l'] with some elements left out. *)
Inductive subseq (A : Type) : list A -> list A -> Prop :=
| subseq_nil : subseq [] []
| subseq_skip x l l' : subseq l l' -> subseq l (x :: l')
| subseq_take x l l' : subseq l l' -> subseq (x :: l) (x :: l').

(** The cell made for a column: the column has a validator, which
    returned data that is not absent, and the cell holds it. *)
Definition cell_of_column (file_name : string) (n : Z) (bn : block_arg)
    (cell : cell_pb2.Cell) (column : option CellValidator * string) : Prop :=
  exists cell_validator cell_parsed_data,
    fst column = Some cell_validator /\
    validate_value cell_validator (snd column) n file_name bn = inr cell_parsed_data /\
    is_absent cell_parsed_data = false /\
    get_cell_object cell_validator cell_parsed_data = inr cell.

Lemma row_cells_order file_name columns n bn : forall s cells,
  fst (row_cells file_name columns n bn s) = inr cells ->
  exists used,
    subseq used columns /\ Forall2 (cell_of_column file_name n bn) cells used.
Proof.
  induction columns as [|[[v|] content] columns IH]; intros s cells; simpl.
  - intros H; inversion H; exists []; split; constructor.
  - unfold bind, record_call, modify, lift; simpl.
    destruct (validate_value v content n file_name bn) as [e|data] eqn:Hv; simpl;
      [discriminate|].
    destruct (is_absent data) eqn:Habs.
    + intros H; destruct (IH _ _ H) as (used & Hsub & Hall).
      exists used; split; [now constructor|exact Hall].
    + destruct (get_cell_object v data) as [e|cell] eqn:Hcell; simpl; [discriminate|].
      match goal with |- context [row_cells file_name columns n bn ?s1] =>
        specialize (IH s1); destruct (row_cells file_name columns n bn s1) as [[e|cs] s2]
      end; simpl in *; [discriminate|].
      unfold ret; simpl; intros H; inversion H; subst.
      destruct (IH cs eq_refl) as (used & Hsub & Hall).
      exists ((Some v, content) :: used); split; [now constructor|].
      constructor; [|exact Hall]. now exists v, data.
  - intros H; destruct (IH _ _ H) as (used & Hsub & Hall).
    exists used; split; [now constructor|exact Hall].
Qed.

(** X14: the cells of the row that [get_row_object] returns follow the
    order of the columns: they are, one for one and in order, the cells
    made for some of the zipped (validator, field) pairs, each pair having
    a validator that returned data that is neither [None] nor the empty
    string; so a row has at most as many cells as the line has fields and
    as the row type has validators. *)
Theorem cells_keep_column_order file_name row_validator line n bn s row :
  fst (get_row_object file_name row_validator line n bn s) = inr row ->
  (exists used,
      subseq used (combine row_validator line) /\
      Forall2 (cell_of_column file_name n bn) (row_pb2.cells row) used) /\
  (List.length (row_pb2.cells row)
   <= Nat.min (List.length row_validator) (List.length line))%nat.
Proof.
  unfold get_row_object, bind, lift, getitem.
  destruct line as [|first rest]; simpl nth_error; cbv iota; [discriminate|].
  pose proof (@row_cells_order file_name (combine row_validator (first :: rest)) n bn s)
    as Horder.
  destruct (row_cells file_name (combine row_validator (first :: rest)) n bn s)
    as [[e|cells] s1]; cbn [fst snd] in *; [discriminate|].
  unfold ret; cbn [fst]; intros H; inversion H; subst; cbn [row_pb2.cells].
  destruct (Horder cells eq_refl) as (used & Hsub & Hall).
  split; [now exists used|].
  rewrite <- length_combine, (Forall2_length Hall).
  clear - Hsub; induction Hsub; simpl; lia.
Qed.

Lemma cells_keep_column_order_witness :
  let row := row_pb2.mkRow "BODY01" 3
               [cell_pb2.mkCell "RecordType" cell_pb2.STRING ["BODY01"] [] [] [];
                cell_pb2.mkCell "Title" cell_pb2.STRING ["foo"] [] [] []] in
  fst (get_row_object Example.file_name
         [Some (Example.accept "RecordType"); None; Some (Example.accept "Title")]
         ["BODY01"; "1"; "foo"; "more"] 3 (BlockInt 1) (start 1)) = inr row /\
  (List.length (row_pb2.cells row) <= 3)%nat.
Proof.
  cbn zeta.
  assert (H : fst (get_row_object Example.file_name
                     [Some (Example.accept "RecordType"); None;
                      Some (Example.accept "Title")]
                     ["BODY01"; "1"; "foo"; "more"] 3 (BlockInt 1) (start 1))
              = inr (row_pb2.mkRow "BODY01" 3
                       [cell_pb2.mkCell "RecordType" cell_pb2.STRING ["BODY01"] [] [] [];
                        cell_pb2.mkCell "Title" cell_pb2.STRING ["foo"] [] [] []]))
    by (vm_compute; reflexivity).
  split; [exact H|].
  exact (proj2 (cells_keep_column_order _ _ _ _ _ _ H)).
Defined.

(** ** The file name of a parser

    [__init__] keeps the path and its base name, and [is_compressed]
    tests the end of the base name.  [path.basename] is the text after
    the last slash of the path ([p[p.rfind('/') + 1:]]). *)

Module path.

(** [s.rfind(c)], [None] for -1. *)
Fixpoint rfind (c : ascii) (s : string) : option nat :=
  match s with
  | EmptyString => None
  | String x s' =>
      match rfind c s' with
      | Some i => Some (S i)
      | None => if Ascii.eqb x c then Some O else None
      end
  end.

Definition sep : ascii := ascii_of_nat 47.

Definition basename (p : string) : string :=
  match rfind sep p with
  | Some i => substring (S i) (String.length p - S i) p
  | None => p
  end.

End path.

(** [s.endswith(suffix)]. *)
Definition endswith (s suffix : string) : bool :=
  let n := String.length s in
  let m := String.length suffix in
  (Nat.leb m n && String.eqb (substring (n - m) m s) suffix)%bool.

(** constants.py *)
Definition GZIP_COMPRESSED_FILE_SUFFIX : string := ".tsv.gz".

Module parser_object.

(** The fields of a [DSRFFileParser] but the logger. *)
Record t : Type := mk {
  file_path : string;
  file_name : string
}.

Definition __init__ (path_of_file : string) : t :=
  mk path_of_file (path.basename path_of_file).

Definition is_compressed (self : t) : bool :=
  endswith (file_name self) GZIP_COMPRESSED_FILE_SUFFIX.

End parser_object.

Lemma string_length_append (a b : string) :
  String.length (a ++ b) = (String.length a + String.length b)%nat.
Proof. induction a as [|x a IH]; simpl; [reflexivity|now rewrite IH]. Qed.

Lemma substring_all (s : string) : substring 0 (String.length s) s = s.
Proof. induction s as [|x s IH]; simpl; [reflexivity|now rewrite IH]. Qed.

Lemma substring_skip (a s : string) k m :
  substring (String.length a + k) m (a ++ s) = substring k m s.
Proof. induction a as [|x a IH]; simpl; [reflexivity|exact IH]. Qed.

Lemma rfind_last c (a b : string) :
  path.rfind c b = None ->
  path.rfind c (a ++ String c b) = Some (String.length a).
Proof.
  intros Hb; induction a as [|x a IH]; simpl.
  - now rewrite Hb, Ascii.eqb_refl.
  - now rewrite IH.
Qed.

Lemma basename_join (dir name : string) :
  path.rfind path.sep name = None ->
  path.basename (dir ++ String path.sep name) = name.
Proof.
  intros Hname; unfold path.basename.
  rewrite (rfind_last path.sep dir name Hname).
  rewrite string_length_append; simpl String.length.
  replace (String.length dir + S (String.length name) - S (String.length dir))%nat
    with (String.length name) by lia.
  replace (S (String.length dir)) with (String.length dir + 1)%nat by lia.
  rewrite substring_skip; simpl. apply substring_all.
Qed.

(** X15: the file name of a parser is the last component of its path:
    for a path made of a directory, a slash and a name without a slash it
    is that name, and a path without a slash is its own file name; so
    [is_compressed] depends on the end of the last component only. *)
Theorem file_name_is_last_component dir name :
  path.rfind path.sep name = None ->
  parser_object.file_name (parser_object.__init__ (dir ++ String path.sep name)) = name /\
  parser_object.file_name (parser_object.__init__ name) = name /\
  parser_object.is_compressed (parser_object.__init__ (dir ++ String path.sep name))
  = endswith name GZIP_COMPRESSED_FILE_SUFFIX.
Proof.
  intros Hname; unfold parser_object.is_compressed, parser_object.__init__; simpl.
  rewrite (basename_join dir name Hname); repeat split.
  unfold path.basename; now rewrite Hname.
Qed.

Lemma file_name_is_last_component_witness :
  path.rfind path.sep "DSR_a_b.tsv" = None /\
  parser_object.file_name
    (parser_object.__init__ ("/data/report.tsv.gz" ++ String path.sep "DSR_a_b.tsv"))
  = "DSR_a_b.tsv" /\
  parser_object.is_compressed
    (parser_object.__init__ ("/data/report.tsv.gz" ++ String path.sep "DSR_a_b.tsv"))
  = false.
Proof.
  assert (H : path.rfind path.sep "DSR_a_b.tsv" = None) by reflexivity.
  destruct (file_name_is_last_component "/data/report.tsv.gz" "DSR_a_b.tsv" H)
    as (Hn & _ & Hc).
  split; [exact H|split; [exact Hn|]].
  rewrite Hc; reflexivity.
Defined.
